(** * NEXUS PORTRAIT frontend: api service, creation and detection screens

    A shallow embedding of [frontend/src/services/api.ts],
    [frontend/src/screens/CreationScreen.tsx],
    [frontend/src/screens/DetectionScreen.tsx] and the route table of
    [frontend/src/App.tsx], with the properties the specification states
    about them. *)

From Stdlib Require Import List String Ascii ZArith NArith Bool Lia.
Import ListNotations.

Local Open Scope Z_scope.

(** ** JavaScript strings

    A JavaScript string is a sequence of UTF-16 code units.  Literals of the
    source are ASCII and are written with [lit]. *)

Definition jstr := list N.

Fixpoint lit (s : string) : jstr :=
  match s with
  | EmptyString => []
  | String c s' => N_of_ascii c :: lit s'
  end.

Definition jstr_eqb (a b : jstr) : bool :=
  if list_eq_dec N.eq_dec a b then true else false.

(** A string is truthy when it is not empty. *)
Definition truthy_str (s : jstr) : bool :=
  match s with [] => false | _ :: _ => true end.

(** ECMAScript WhiteSpace and LineTerminator code points, the ones
    [String.prototype.trim] strips. *)
Definition is_whitespace (c : N) : bool :=
  ((c =? 9) || (c =? 10) || (c =? 11) || (c =? 12) || (c =? 13) || (c =? 32)
   || (c =? 160) || (c =? 5760) || ((8192 <=? c) && (c <=? 8202))
   || (c =? 8232) || (c =? 8233) || (c =? 8239) || (c =? 8287)
   || (c =? 12288) || (c =? 65279))%N.

Fixpoint trimStart (s : jstr) : jstr :=
  match s with
  | [] => []
  | c :: s' => if is_whitespace c then trimStart s' else s
  end.

Definition trimEnd (s : jstr) : jstr := rev (trimStart (rev s)).

Definition trim (s : jstr) : jstr := trimEnd (trimStart s).

(** ** Browser values *)

Record File := mkFile {
  file_name : jstr;
  file_type : jstr;
  file_bytes : list N
}.

Inductive FormValue :=
| FileValue (f : File)
| TextValue (s : jstr).

(** [FormData] keeps its entries in insertion order and allows a name to
    occur several times. *)
Definition FormData := list (jstr * FormValue).

Definition fd_append (fd : FormData) (name : jstr) (v : FormValue) : FormData :=
  fd ++ [(name, v)].

Definition has_field (name : jstr) (fd : FormData) : bool :=
  existsb (fun e => jstr_eqb (fst e) name) fd.

Definition text_fields (name : jstr) (fd : FormData) : list jstr :=
  flat_map (fun e => match snd e with
                     | TextValue s => if jstr_eqb (fst e) name then [s] else []
                     | FileValue _ => []
                     end) fd.

Definition file_fields (name : jstr) (fd : FormData) : list File :=
  flat_map (fun e => match snd e with
                     | FileValue f => if jstr_eqb (fst e) name then [f] else []
                     | TextValue _ => []
                     end) fd.

Inductive Method := GET | POST.

Record Request := mkRequest {
  req_url : jstr;
  req_method : Method;
  req_body : option FormData
}.

(** The parsed JSON body of a response, seen through the fields the client
    reads: [GenerateImageResponse] on success, FastAPI's [detail] on
    failure.  A missing [detail] is [None]. *)
Record Payload := mkPayload {
  image : jstr;
  mock_mode : bool;
  watermark_embedded : bool;
  detail : option jstr
}.

(** [json = None]: [response.json()] rejects. *)
Record Response := mkResponse {
  ok : bool;
  statusText : jstr;
  json : option Payload
}.

(** What a promise rejects with. *)
Inductive Thrown :=
| ErrorObj (message : jstr)
| OtherThrown.

Inductive FetchOutcome :=
| NetworkFailure (t : Thrown)
| Responded (r : Response).

(** ** services/api.ts *)

Module Api.

(** The effects of the service: the requests issued and the console lines
    written, oldest first. *)
Record World := mkWorld {
  requests : list Request;
  console : list jstr
}.

Definition empty_world : World := {| requests := []; console := [] |}.

(** An async function: it threads the world and resolves ([inr]) or
    rejects ([inl]). *)
Definition Async (A : Type) : Type := World -> World * (Thrown + A).

Definition resolve {A} (a : A) : Async A := fun w => (w, inr a).
Definition throw {A} (t : Thrown) : Async A := fun w => (w, inl t).

Definition bind {A B} (m : Async A) (k : A -> Async B) : Async B :=
  fun w => match m w with
           | (w', inr a) => k a w'
           | (w', inl t) => (w', inl t)
           end.

Definition try_catch {A} (m : Async A) (h : Thrown -> Async A) : Async A :=
  fun w => match m w with
           | (w', inr a) => (w', inr a)
           | (w', inl t) => h t w'
           end.

Notation "x <- m ;; k" := (bind m (fun x => k))
  (at level 61, m at next level, right associativity).
Notation "m ;;; k" := (bind m (fun _ => k))
  (at level 61, right associativity).

Definition console_log (line : jstr) : Async unit :=
  fun w => ({| requests := requests w; console := console w ++ [line] |}, inr tt).

Definition when (b : bool) (m : Async unit) : Async unit :=
  if b then m else resolve tt.

Definition API_BASE : jstr := lit "http://localhost:8000".

Section WithBackend.

(** The network and the backend behind it: the outcome of each request. *)
Variable backend : Request -> FetchOutcome.

Definition fetch (r : Request) : Async Response :=
  fun w =>
    let w' := {| requests := requests w ++ [r]; console := console w |} in
    match backend r with
    | NetworkFailure t => (w', inl t)
    | Responded resp => (w', inr resp)
    end.

(** [response.json()] *)
Definition response_json (r : Response) : Async Payload :=
  match json r with
  | Some p => resolve p
  | None => throw (ErrorObj (lit "Unexpected end of JSON input"))
  end.

(** [error.detail || `Generation failed: ${response.statusText}`] *)
Definition detail_or (p : Payload) (fallback : jstr) : jstr :=
  match detail p with
  | Some d => if truthy_str d then d else fallback
  | None => fallback
  end.

Definition statusText_payload (r : Response) : Payload :=
  {| image := []; mock_mode := false; watermark_embedded := false;
     detail := Some (statusText r) |}.

(** [watermarkText && watermarkText.trim()] as a condition. *)
Definition watermark_given (watermarkText : option jstr) : bool :=
  match watermarkText with
  | None => false
  | Some w => truthy_str w && truthy_str (trim w)
  end.

Definition build_form (files : list File) (watermarkText : option jstr) : FormData :=
  let formData := fold_left (fun fd file => fd_append fd (lit "files") (FileValue file))
                            files [] in
  match watermarkText with
  | Some w => if watermark_given watermarkText
              then fd_append formData (lit "watermark_text") (TextValue w)
              else formData
  | None => formData
  end.

Definition generateImage (files : list File) (watermarkText : option jstr)
  : Async jstr :=
  if (List.length files =? 0)%nat then
    throw (ErrorObj (lit "At least one reference image is required"))
  else if (5 <? List.length files)%nat then
    throw (ErrorObj (lit "Maximum 5 reference images allowed"))
  else
    let formData := build_form files watermarkText in
    response <- fetch {| req_url := API_BASE ++ lit "/api/generate-image";
                         req_method := POST;
                         req_body := Some formData |} ;;
    if negb (ok response) then
      error <- try_catch (response_json response)
                         (fun _ => resolve (statusText_payload response)) ;;
      throw (ErrorObj (detail_or error
                         (lit "Generation failed: " ++ statusText response)))
    else
      data <- response_json response ;;
      when (mock_mode data)
           (console_log (lit "[API] Backend is in mock mode - returning reference image")) ;;;
      when (watermark_embedded data)
           (console_log (lit "[API] Watermark embedded successfully")) ;;;
      resolve (lit "data:image/png;base64," ++ image data).

Definition healthCheck : Async bool :=
  try_catch
    (response <- fetch {| req_url := API_BASE ++ lit "/health";
                          req_method := GET;
                          req_body := None |} ;;
     resolve (ok response))
    (fun _ => resolve false).

End WithBackend.

End Api.

(** [arr[i]] for a numeric index: [None] is [undefined]. *)
Definition at_index {A} (l : list A) (i : Z) : option A :=
  if i <? 0 then None else nth_error l (Z.to_nat i).

(** [arr.filter((x, i) => keep i)] *)
Fixpoint filter_from {A} (keep : Z -> bool) (i : Z) (l : list A) : list A :=
  match l with
  | [] => []
  | x :: l' => if keep i then x :: filter_from keep (i + 1) l'
               else filter_from keep (i + 1) l'
  end.

Definition filter_index {A} (keep : Z -> bool) (l : list A) : list A :=
  filter_from keep 0 l.

(** [arr.slice(0, n)] for an integer [n]; a negative [n] counts from the
    end. *)
Definition slice0 {A} (n : Z) (l : list A) : list A :=
  if n <? 0 then firstn (List.length l - Z.to_nat (- n)) l
  else firstn (Z.to_nat n) l.

Definition len {A} (l : list A) : Z := Z.of_nat (List.length l).

(** ** screens/CreationScreen.tsx *)

Module Creation.

Record State := mkState {
  sourceImages : list File;
  previewUrls : list jstr;
  activeIndex : Z;
  secretData : jstr;
  isProcessing : bool;
  isComplete : bool;
  generatedImageUrl : option jstr;
  error : option jstr
}.

Definition initial : State :=
  {| sourceImages := []; previewUrls := []; activeIndex := 0;
     secretData := []; isProcessing := false; isComplete := false;
     generatedImageUrl := None; error := None |}.

Section WithBrowser.

(** [URL.createObjectURL] *)
Variable createObjectURL : File -> jstr.

(** A handler runs on the state of the render that created it, so the
    [sourceImages] of its closure and the [prev] of its updaters are the
    same list. *)
Definition handleFiles (files : list File) (s : State) : State :=
  let remainingSlots := 5 - len (sourceImages s) in
  if remainingSlots <=? 0 then s
  else
    let newFiles := slice0 remainingSlots files in
    let newUrls := map createObjectURL newFiles in
    {| sourceImages := sourceImages s ++ newFiles;
       previewUrls := previewUrls s ++ newUrls;
       activeIndex := if len (sourceImages s) =? 0 then 0 else activeIndex s;
       secretData := secretData s;
       isProcessing := isProcessing s;
       isComplete := false;
       generatedImageUrl := generatedImageUrl s;
       error := error s |}.

Definition reset (s : State) : State :=
  {| sourceImages := []; previewUrls := []; activeIndex := 0;
     secretData := []; isProcessing := false; isComplete := false;
     generatedImageUrl := None; error := None |}.

Definition removeImage (index : Z) (s : State) : State :=
  let newImages := filter_index (fun i => negb (i =? index)) (sourceImages s) in
  let newUrls := filter_index (fun i => negb (i =? index)) (previewUrls s) in
  {| sourceImages := newImages;
     previewUrls := newUrls;
     activeIndex := if len newImages <=? activeIndex s
                    then Z.max 0 (len newImages - 1)
                    else activeIndex s;
     secretData := secretData s;
     isProcessing := isProcessing s;
     isComplete := isComplete s;
     generatedImageUrl := generatedImageUrl s;
     error := error s |}.

(** The synchronous part of [handleEmbed], up to the [await]. *)
Definition embed_begin (s : State) : State :=
  {| sourceImages := sourceImages s; previewUrls := previewUrls s;
     activeIndex := activeIndex s; secretData := secretData s;
     isProcessing := true; isComplete := false;
     generatedImageUrl := generatedImageUrl s; error := None |}.

(** [err instanceof Error ? err.message : "Generation failed"] *)
Definition error_text (t : Thrown) : jstr :=
  match t with
  | ErrorObj m => m
  | OtherThrown => lit "Generation failed"
  end.

(** The part of [handleEmbed] after the [await]: the [try] continuation or
    the [catch] block, then [finally]. *)
Definition embed_settle (r : Thrown + jstr) (s : State) : State :=
  match r with
  | inr generatedUrl =>
      {| sourceImages := sourceImages s; previewUrls := previewUrls s;
         activeIndex := activeIndex s; secretData := secretData s;
         isProcessing := false; isComplete := true;
         generatedImageUrl := Some generatedUrl; error := error s |}
  | inl err =>
      {| sourceImages := sourceImages s; previewUrls := previewUrls s;
         activeIndex := activeIndex s; secretData := secretData s;
         isProcessing := false; isComplete := isComplete s;
         generatedImageUrl := generatedImageUrl s;
         error := Some (error_text err) |}
  end.

Variable backend : Request -> FetchOutcome.

Definition handleEmbed (s : State) (w : Api.World) : Api.World * State :=
  if len (sourceImages s) =? 0 then (w, s)
  else
    match Api.generateImage backend (sourceImages s) (Some (secretData s)) w with
    | (w', inr url) => (w', embed_settle (inr url) (embed_begin s))
    | (w', inl err) =>
        ({| Api.requests := Api.requests w';
            Api.console := Api.console w' ++ [lit "Generation failed:"] |},
         embed_settle (inl err) (embed_begin s))
    end.

(** The [src] of the image the viewport shows; [None] when the studio is
    empty or the index has no preview. *)
Definition displayed_src (s : State) : option jstr :=
  match previewUrls s with
  | [] => None
  | _ :: _ =>
      match generatedImageUrl s with
      | Some u => if isComplete s && truthy_str u then Some u
                  else at_index (previewUrls s) (activeIndex s)
      | None => at_index (previewUrls s) (activeIndex s)
      end
  end.

End WithBrowser.

(** The invariant of the asset library. *)
Definition library_ok (s : State) : Prop :=
  len (sourceImages s) <= 5 /\
  List.length (previewUrls s) = List.length (sourceImages s) /\
  0 <= activeIndex s <= Z.max 0 (len (sourceImages s) - 1).

End Creation.

(** ** screens/DetectionScreen.tsx *)

Module Detection.

Record State := mkState {
  image : option File;
  previewUrl : option jstr;
  isScanning : bool;
  scanComplete : bool;
  metadata : option jstr;
  verificationStep : Z
}.

Definition initial : State :=
  {| image := None; previewUrl := None; isScanning := false;
     scanComplete := false; metadata := None; verificationStep := 0 |}.

(** The state setters of the component. *)
Inductive Setter :=
| SetImage (v : option File)
| SetPreviewUrl (v : option jstr)
| SetIsScanning (v : bool)
| SetScanComplete (v : bool)
| SetMetadata (v : option jstr)
| SetVerificationStep (v : Z).

Definition apply_setter (a : Setter) (s : State) : State :=
  match a with
  | SetImage v =>
      {| image := v; previewUrl := previewUrl s; isScanning := isScanning s;
         scanComplete := scanComplete s; metadata := metadata s;
         verificationStep := verificationStep s |}
  | SetPreviewUrl v =>
      {| image := image s; previewUrl := v; isScanning := isScanning s;
         scanComplete := scanComplete s; metadata := metadata s;
         verificationStep := verificationStep s |}
  | SetIsScanning v =>
      {| image := image s; previewUrl := previewUrl s; isScanning := v;
         scanComplete := scanComplete s; metadata := metadata s;
         verificationStep := verificationStep s |}
  | SetScanComplete v =>
      {| image := image s; previewUrl := previewUrl s; isScanning := isScanning s;
         scanComplete := v; metadata := metadata s;
         verificationStep := verificationStep s |}
  | SetMetadata v =>
      {| image := image s; previewUrl := previewUrl s; isScanning := isScanning s;
         scanComplete := scanComplete s; metadata := v;
         verificationStep := verificationStep s |}
  | SetVerificationStep v =>
      {| image := image s; previewUrl := previewUrl s; isScanning := isScanning s;
         scanComplete := scanComplete s; metadata := metadata s;
         verificationStep := v |}
  end.

(** What a handler of the component does, in program order: it calls a
    setter, registers a timeout whose callback calls setters, or issues a
    network request. *)
Inductive Cmd :=
| Update (a : Setter)
| SetTimeout (callback : list Setter) (delay : Z)
| Fetch (r : Request).

(** The line feed of the ["\n"] escapes. *)
Definition LF : jstr := [10%N].

Definition FAKE_METADATA : jstr :=
  lit "PROVENANCE_KEY_VERIFIED: 0x92f...a12b" ++ LF ++
  lit "TIMESTAMP: 2024-12-06T19:42:00Z" ++ LF ++
  lit "ORIGIN: NEXUS_TERMINAL_ALPHA" ++ LF ++
  lit "INTEGRITY: 100%".

Definition analyze_cb : list Setter := [SetVerificationStep 2].
Definition extract_cb : list Setter := [SetVerificationStep 3].
Definition finish_cb : list Setter :=
  [SetIsScanning false; SetScanComplete true; SetMetadata (Some FAKE_METADATA)].

Definition handleScan (s : State) : list Cmd :=
  match image s with
  | None => []
  | Some _ =>
      [Update (SetIsScanning true);
       Update (SetVerificationStep 1);
       SetTimeout analyze_cb 1500;
       SetTimeout extract_cb 3000;
       SetTimeout finish_cb 4500]
  end.

Definition reset (s : State) : list Cmd :=
  [Update (SetImage None); Update (SetPreviewUrl None);
   Update (SetScanComplete false); Update (SetMetadata None);
   Update (SetVerificationStep 0)].

Section WithBrowser.

(** [URL.createObjectURL] *)
Variable createObjectURL : File -> jstr.

Definition processFile (file : File) (s : State) : list Cmd :=
  [Update (SetImage (Some file));
   Update (SetPreviewUrl (Some (createObjectURL file)));
   Update (SetScanComplete false); Update (SetMetadata None);
   Update (SetVerificationStep 0)].

(** [e.dataTransfer.files?.[0]] guards the call. *)
Definition handleDrop (files : list File) (s : State) : list Cmd :=
  match files with
  | [] => []
  | file :: _ => processFile file s
  end.

(** *** The page: state, clock, pending timers and what was observed *)

Record Timer := mkTimer { due : Z; callback_of : list Setter }.

Record World := mkWorld {
  ui : State;
  clock : Z;
  timers : list Timer;            (* pending, next to fire first *)
  requests : list Request;        (* network requests issued, oldest first *)
  history : list (Z * State)      (* every state the component went through *)
}.

Definition boot : World :=
  {| ui := initial; clock := 0; timers := []; requests := []; history := [] |}.

(** Timers fire by due time, and in registration order when due together. *)
Fixpoint schedule (t : Timer) (q : list Timer) : list Timer :=
  match q with
  | [] => [t]
  | u :: q' => if due t <? due u then t :: q else u :: schedule t q'
  end.

Definition set_state (a : Setter) (w : World) : World :=
  let s' := apply_setter a (ui w) in
  {| ui := s'; clock := clock w; timers := timers w; requests := requests w;
     history := history w ++ [(clock w, s')] |}.

Definition exec (c : Cmd) (w : World) : World :=
  match c with
  | Update a => set_state a w
  | SetTimeout cb delay =>
      {| ui := ui w; clock := clock w;
         timers := schedule {| due := clock w + delay; callback_of := cb |} (timers w);
         requests := requests w; history := history w |}
  | Fetch r =>
      {| ui := ui w; clock := clock w; timers := timers w;
         requests := requests w ++ [r]; history := history w |}
  end.

Definition advance (t : Z) (w : World) : World :=
  {| ui := ui w; clock := Z.max (clock w) t; timers := timers w;
     requests := requests w; history := history w |}.

(** Run a handler at time [t]: its closure sees the state of the last
    render. *)
Definition dispatch (h : State -> list Cmd) (t : Z) (w : World) : World :=
  let w0 := advance t w in
  fold_left (fun acc c => exec c acc) (h (ui w0)) w0.

(** Fire the next pending timer. *)
Definition fire (w : World) : option World :=
  match timers w with
  | [] => None
  | tm :: rest =>
      let w0 := {| ui := ui w; clock := Z.max (clock w) (due tm); timers := rest;
                   requests := requests w; history := history w |} in
      Some (fold_left (fun acc a => set_state a acc) (callback_of tm) w0)
  end.

(** Let the page run with no user input until no timer is pending.  A
    callback registers no timer, so the number of pending timers is enough
    fuel. *)
Fixpoint run_timers (fuel : nat) (w : World) : World :=
  match fuel with
  | O => w
  | S n => match fire w with
           | Some w' => run_timers n w'
           | None => w
           end
  end.

Definition settle (w : World) : World := run_timers (List.length (timers w)) w.

(** *** What the user can do, as the rendered page allows it *)

Inductive UserEvent :=
| DropFiles (files : list File)      (* onDrop of the upload area *)
| ChooseFile (file : File)           (* onChange of the file input *)
| ClickScan                          (* INITIATE SCAN *)
| ClickReset.                        (* ANALYZE ANOTHER ASSET *)

Definition enabled (e : UserEvent) (s : State) : bool :=
  match e with
  | DropFiles _ => true
  | ChooseFile _ => negb (isScanning s)
  | ClickScan =>
      negb (scanComplete s)
      && negb (match image s with None => true | Some _ => false end
               || isScanning s)
  | ClickReset => scanComplete s
  end.

Definition handler (e : UserEvent) : State -> list Cmd :=
  match e with
  | DropFiles files => handleDrop files
  | ChooseFile file => processFile file
  | ClickScan => handleScan
  | ClickReset => reset
  end.

Inductive step : World -> World -> Prop :=
| step_user (e : UserEvent) (t : Z) (w : World) :
    enabled e (ui w) = true -> clock w <= t ->
    step w (dispatch (handler e) t w)
| step_timer (w w' : World) :
    fire w = Some w' -> step w w'.

Inductive reachable : World -> Prop :=
| reach_boot : reachable boot
| reach_step (w w' : World) : reachable w -> step w w' -> reachable w'.

(** What the page shows of a verification. *)
Definition verdict (s : State) : bool * bool * Z * option jstr :=
  (isScanning s, scanComplete s, verificationStep s, metadata s).

Definition progress (e : Z * State) : Z * Z * bool * bool :=
  (fst e, verificationStep (snd e), isScanning (snd e), scanComplete (snd e)).

(** The part of the history written since [w]. *)
Definition since (w w' : World) : list (Z * State) :=
  skipn (List.length (history w)) (history w').

Definition consistent (s : State) : bool :=
  negb (isScanning s && scanComplete s).

End WithBrowser.

End Detection.

(** ** App.tsx: the route table *)

Module App.









End App.

(** * Requests, outcomes and sample values used in the statements *)

Definition generate_request (files : list File) (wm : option jstr) : Request :=
  {| req_url := lit "http://localhost:8000/api/generate-image";
     req_method := POST;
     req_body := Some (Api.build_form files wm) |}.

Definition generate_outcome (o : FetchOutcome) : Thrown + jstr :=
  match o with
  | NetworkFailure t => inl t
  | Responded resp =>
      if ok resp then
        match json resp with
        | Some data => inr (lit "data:image/png;base64," ++ image data)
        | None => inl (ErrorObj (lit "Unexpected end of JSON input"))
        end
      else
        inl (ErrorObj
               (Api.detail_or
                  (match json resp with
                   | Some p => p
                   | None => Api.statusText_payload resp
                   end)
                  (lit "Generation failed: " ++ statusText resp)))
  end.

(** Sample values for the concrete instances below. *)
Definition portrait : File :=
  {| file_name := lit "portrait.png"; file_type := lit "image/png";
     file_bytes := [137; 80; 78; 71]%N |}.

Definition landscape : File :=
  {| file_name := lit "landscape.jpg"; file_type := lit "image/jpeg";
     file_bytes := [255; 216; 255]%N |}.

Definition backend_returning (img : jstr) : Request -> FetchOutcome :=
  fun _ => Responded {| ok := true; statusText := lit "OK";
                        json := Some {| image := img; mock_mode := false;
                                        watermark_embedded := true;
                                        detail := None |} |}.

Definition backend_down : Request -> FetchOutcome :=
  fun _ => NetworkFailure (ErrorObj (lit "Failed to fetch")).

Definition blob_url (f : File) : jstr := lit "blob:" ++ file_name f.

Definition four_loaded : Creation.State :=
  Creation.handleFiles blob_url [portrait; landscape; portrait; landscape]
    Creation.initial.



Definition all_consistent (h : list (Z * Detection.State)) : Prop :=
  Forall (fun e => Detection.consistent (snd e) = true) h.

(** The invariant of the page: no request is ever issued; while idle no
    timer is pending and an unfinished verification stands at step 0; while
    scanning nothing is complete yet and the pending callbacks are a tail
    of the scan's timeline. *)
Definition page_inv (w : Detection.World) : Prop :=
  all_consistent (Detection.history w) /\
  Detection.requests w = [] /\
  ((Detection.isScanning (Detection.ui w) = false /\
    Detection.timers w = [] /\
    (Detection.scanComplete (Detection.ui w) = false ->
     Detection.verificationStep (Detection.ui w) = 0)) \/
   (Detection.isScanning (Detection.ui w) = true /\
    Detection.scanComplete (Detection.ui w) = false /\
    In (map Detection.callback_of (Detection.timers w))
       [[Detection.analyze_cb; Detection.extract_cb; Detection.finish_cb];
        [Detection.extract_cb; Detection.finish_cb];
        [Detection.finish_cb]])).


Definition asset_dropped : Detection.World :=
  Detection.dispatch
    (Detection.handler blob_url (Detection.DropFiles [portrait])) 10
    Detection.boot.

Definition other_asset_chosen : Detection.World :=
  Detection.dispatch
    (Detection.handler blob_url (Detection.ChooseFile landscape)) 250
    Detection.boot.

(** A scan of [asset_dropped] started at 100, its first timer fired, and
    another file dropped on the upload area at 2000 while it runs. *)
Definition dropped_mid_scan : Detection.World :=
  let scanning := Detection.dispatch Detection.handleScan 100 asset_dropped in
  let analyzed := match Detection.fire scanning with
                  | Some w => w
                  | None => scanning
                  end in
  Detection.dispatch
    (Detection.handler blob_url (Detection.DropFiles [landscape])) 2000 analyzed.

(** * The rest of the three files *)

(** ** services/api.ts: [verifyImage] *)

Module Verify.

Record VerifyImageResponse := mkVerifyImageResponse {
  analysis : jstr;
  verified : bool;
  extracted_data : option jstr;
  in_mock_mode : bool
}.

(** The parsed JSON body of a response of [/api/verify], seen through the
    fields the client reads: the interface on success, FastAPI's [detail]
    on failure. *)
Record Body := mkBody {
  body_data : VerifyImageResponse;
  body_detail : option jstr
}.

Record Reply := mkReply {
  reply_ok : bool;
  reply_statusText : jstr;
  reply_json : option Body
}.

Inductive Outcome :=
| Unreachable (t : Thrown)
| Replied (r : Reply).

Notation "x <- m ;; k" := (Api.bind m (fun x => k))
  (at level 61, m at next level, right associativity).
Notation "m ;;; k" := (Api.bind m (fun _ => k))
  (at level 61, right associativity).

Section WithBackend.

Variable backend : Request -> Outcome.

Definition fetch (r : Request) : Api.Async Reply :=
  fun w =>
    let w' := {| Api.requests := Api.requests w ++ [r];
                 Api.console := Api.console w |} in
    match backend r with
    | Unreachable t => (w', inl t)
    | Replied resp => (w', inr resp)
    end.



(** [error.detail || `Verification failed: ${response.statusText}`] *)
Definition detail_or (b : Body) (fallback : jstr) : jstr :=
  match body_detail b with
  | Some d => if truthy_str d then d else fallback
  | None => fallback
  end.


End WithBackend.


End Verify.

(** ** screens/CreationScreen.tsx: the other handlers and the page *)

Module Studio.

(** [onClick={() => setActiveIndex(idx)}] of a thumbnail *)
Definition setActiveIndex (idx : Z) (s : Creation.State) : Creation.State :=
  {| Creation.sourceImages := Creation.sourceImages s;
     Creation.previewUrls := Creation.previewUrls s;
     Creation.activeIndex := idx;
     Creation.secretData := Creation.secretData s;
     Creation.isProcessing := Creation.isProcessing s;
     Creation.isComplete := Creation.isComplete s;
     Creation.generatedImageUrl := Creation.generatedImageUrl s;
     Creation.error := Creation.error s |}.

(** [onChange={(e) => setSecretData(e.target.value)}] of the text area *)
Definition setSecretData (text : jstr) (s : Creation.State) : Creation.State :=
  {| Creation.sourceImages := Creation.sourceImages s;
     Creation.previewUrls := Creation.previewUrls s;
     Creation.activeIndex := Creation.activeIndex s;
     Creation.secretData := text;
     Creation.isProcessing := Creation.isProcessing s;
     Creation.isComplete := Creation.isComplete s;
     Creation.generatedImageUrl := Creation.generatedImageUrl s;
     Creation.error := Creation.error s |}.

(** The button beside DOWNLOAD ASSET:
    [setIsProcessing(false); setIsComplete(false);
     setGeneratedImageUrl(null); setError(null)] *)
Definition retry (s : Creation.State) : Creation.State :=
  {| Creation.sourceImages := Creation.sourceImages s;
     Creation.previewUrls := Creation.previewUrls s;
     Creation.activeIndex := Creation.activeIndex s;
     Creation.secretData := Creation.secretData s;
     Creation.isProcessing := false;
     Creation.isComplete := false;
     Creation.generatedImageUrl := None;
     Creation.error := None |}.

(** What [handleDownload] hands to the anchor it clicks. *)
Record Download := mkDownload { href : jstr; download : jstr }.

(** [now] is [Date.now()] as the template literal prints it.  [None]: the
    handler returns early. *)
Definition handleDownload (now : jstr) (s : Creation.State) : option Download :=
  let preview := at_index (Creation.previewUrls s) (Creation.activeIndex s) in
  let urlToDownload :=
    match Creation.generatedImageUrl s with
    | Some u => if Creation.isComplete s && truthy_str u then Some u else preview
    | None => preview
    end in
  match urlToDownload with
  | Some u =>
      if truthy_str u
      then Some {| href := u;
                   download := lit "nexus_portrait_" ++ now ++ lit ".png" |}
      else None
  | None => None
  end.

(** The error banner sits in the branch rendered when [isComplete] holds:
    [{!isComplete ? <Button .../> : (... {error && <div>{error}</div>} ...)}]. *)
Definition shown_error (s : Creation.State) : option jstr :=
  if Creation.isComplete s then
    match Creation.error s with
    | Some e => if truthy_str e then Some e else None
    | None => None
    end
  else None.

(** The page: the component state, the requests and console lines so far,
    and the result the pending [generateImage] call will settle with. *)
Record Page := mkPage {
  st : Creation.State;
  net : Api.World;
  pending : option (Thrown + jstr)
}.

Definition start : Page :=
  {| st := Creation.initial; net := Api.empty_world; pending := None |}.

Inductive Event :=
| AddFiles (files : list File)       (* drop on the zone, or the file input *)
| SelectThumb (idx : Z)              (* click on a thumbnail *)
| RemoveThumb (idx : Z)              (* the x of a thumbnail *)
| TypeSecret (text : jstr)
| ClickRender                        (* RENDER PORTRAIT: handleEmbed to its await *)
| Settle                             (* the awaited call settles *)
| ClickRetry.

Definition thumb_exists (idx : Z) (s : Creation.State) : bool :=
  (0 <=? idx) && (idx <? len (Creation.sourceImages s)).

Definition enabled (e : Event) (p : Page) : bool :=
  match e with
  | AddFiles _ => true
  | SelectThumb idx => thumb_exists idx (st p)
  | RemoveThumb idx => thumb_exists idx (st p)
  | TypeSecret _ => true
  | ClickRender =>
      negb (Creation.isComplete (st p))
      && negb ((len (Creation.sourceImages (st p)) =? 0)
               || Creation.isProcessing (st p))
  | Settle => match pending p with Some _ => true | None => false end
  | ClickRetry => Creation.isComplete (st p)
  end.

Section WithBrowser.

Variable createObjectURL : File -> jstr.
Variable backend : Request -> FetchOutcome.

Definition on_state (f : Creation.State -> Creation.State) (p : Page) : Page :=
  {| st := f (st p); net := net p; pending := pending p |}.

(** [handleEmbed] in its two halves: the click issues the request, and the
    page goes on while the promise is pending. *)
Definition fire (e : Event) (p : Page) : Page :=
  match e with
  | AddFiles files => on_state (Creation.handleFiles createObjectURL files) p
  | SelectThumb idx => on_state (setActiveIndex idx) p
  | RemoveThumb idx => on_state (Creation.removeImage idx) p
  | TypeSecret text => on_state (setSecretData text) p
  | ClickRender =>
      if len (Creation.sourceImages (st p)) =? 0 then p
      else
        let '(w', r) := Api.generateImage backend (Creation.sourceImages (st p))
                          (Some (Creation.secretData (st p))) (net p) in
        {| st := Creation.embed_begin (st p); net := w'; pending := Some r |}
  | Settle =>
      match pending p with
      | None => p
      | Some r =>
          {| st := Creation.embed_settle r (st p);
             net := match r with
                    | inr _ => net p
                    | inl _ =>
                        {| Api.requests := Api.requests (net p);
                           Api.console := Api.console (net p)
                                          ++ [lit "Generation failed:"] |}
                    end;
             pending := None |}
      end
  | ClickRetry => on_state retry p
  end.

Inductive reachable : Page -> Prop :=
| reach_start : reachable start
| reach_fire (e : Event) (p : Page) :
    reachable p -> enabled e p = true -> reachable (fire e p).

End WithBrowser.

End Studio.

(** ** screens/DetectionScreen.tsx: the step list *)

Module StepList.

Inductive Look := Active | Completed | Waiting.

(** What a [StepItem] shows: its colours, and whether the number gives way
    to the check mark. *)
Record View := mkView { look : Look; check_mark : bool }.

Definition StepItem (step current : Z) : View :=
  let isCompleted := step <? current in
  let isActive := current =? step in
  {| look := if isActive then Active
             else if isCompleted then Completed else Waiting;
     check_mark := isCompleted |}.

(** The three items are rendered while [isScanning || scanComplete];
    otherwise the panel reads "Waiting for input...". *)
Definition panel (s : Detection.State) : option (list View) :=
  if Detection.isScanning s || Detection.scanComplete s then
    Some [ StepItem 1 (Detection.verificationStep s);
           StepItem 2 (Detection.verificationStep s);
           StepItem 3 (Detection.verificationStep s) ]
  else None.

Definition waiting : View := {| look := Waiting; check_mark := false |}.
Definition active : View := {| look := Active; check_mark := false |}.
Definition done : View := {| look := Completed; check_mark := true |}.

End StepList.

(** The finer invariant of the detection page: how the step shown, the
    metadata and the loaded file go with the scan's pending callbacks. *)
Definition scan_facts (createObjectURL : File -> jstr) (w : Detection.World) : Prop :=
  let s := Detection.ui w in
  let cbs := map Detection.callback_of (Detection.timers w) in
  let step := Detection.verificationStep s in
  Detection.previewUrl s = option_map createObjectURL (Detection.image s) /\
  ((Detection.isScanning s = false /\ cbs = [] /\
    ((Detection.scanComplete s = false /\ Detection.metadata s = None /\ step = 0) \/
     (Detection.scanComplete s = true /\
      Detection.metadata s = Some Detection.FAKE_METADATA /\
      Detection.image s <> None /\ (step = 0 \/ step = 3)))) \/
   (Detection.isScanning s = true /\ Detection.scanComplete s = false /\
    Detection.metadata s = None /\ Detection.image s <> None /\
    ((cbs = [Detection.analyze_cb; Detection.extract_cb; Detection.finish_cb]
      /\ (step = 0 \/ step = 1)) \/
     (cbs = [Detection.extract_cb; Detection.finish_cb]
      /\ (step = 0 \/ step = 2)) \/
     (cbs = [Detection.finish_cb] /\ (step = 0 \/ step = 3))))).

(** A page in the middle of a scan: [asset_dropped] scanned from 100, with
    the first callback fired. *)
Definition scan_under_way : Detection.World :=
  let scanning := Detection.dispatch Detection.handleScan 100 asset_dropped in
  match Detection.fire scanning with
  | Some w => w
  | None => scanning
  end.

Definition scan_finished : Detection.World :=
  Detection.settle (Detection.dispatch Detection.handleScan 100 asset_dropped).

(** The invariant of the creation page. *)
Definition studio_inv (createObjectURL : File -> jstr) (p : Studio.Page) : Prop :=
  let s := Studio.st p in
  Creation.library_ok s /\
  Creation.previewUrls s = map createObjectURL (Creation.sourceImages s) /\
  match Studio.pending p with
  | Some r =>
      Creation.isProcessing s = true /\ Creation.isComplete s = false /\
      Creation.error s = None /\ (forall url, r = inr url -> url <> [])
  | None =>
      Creation.isProcessing s = false /\
      (Creation.isComplete s = true ->
       Creation.error s = None /\
       exists u, Creation.generatedImageUrl s = Some u /\ u <> [])
  end.

Definition backend_refusing (st : jstr) (body : option Payload) : Request -> FetchOutcome :=
  fun _ => Responded {| ok := false; statusText := st; json := body |}.

(** Sample pages of the creation screen: one file added; then RENDER
    PORTRAIT clicked; then the call settled. *)
Definition page_loaded (backend : Request -> FetchOutcome) : Studio.Page :=
  Studio.fire blob_url backend (Studio.AddFiles [portrait]) Studio.start.

Definition page_rendering (backend : Request -> FetchOutcome) : Studio.Page :=
  Studio.fire blob_url backend Studio.ClickRender (page_loaded backend).

Definition page_settled (backend : Request -> FetchOutcome) : Studio.Page :=
  Studio.fire blob_url backend Studio.Settle (page_rendering backend).

(** The setters of a callback, applied in order. *)
Definition apply_all (cb : list Detection.Setter) (s : Detection.State) : Detection.State :=
  fold_left (fun acc a => Detection.apply_setter a acc) cb s.

(** * Properties *)

(** ** Strings *)

Lemma trimStart_nil_iff (s : jstr) :
  trimStart s = [] <-> forallb is_whitespace s = true.
Proof.
  induction s as [|c s IH]; simpl.
  - tauto.
  - destruct (is_whitespace c); simpl.
    + exact IH.
    + split; discriminate.
Qed.

Lemma trimStart_keeps_blackness (s : jstr) :
  forallb is_whitespace (trimStart s) = forallb is_whitespace s.
Proof.
  induction s as [|c s IH]; simpl; [reflexivity|].
  destruct (is_whitespace c) eqn:E; simpl; [exact IH|].
  now rewrite E.
Qed.

Lemma forallb_rev {A} (p : A -> bool) (l : list A) :
  forallb p (rev l) = forallb p l.
Proof.
  induction l as [|x l IH]; simpl; [reflexivity|].
  rewrite forallb_app, IH. simpl. rewrite andb_true_r. apply andb_comm.
Qed.

Lemma trim_nil_iff (s : jstr) :
  trim s = [] <-> forallb is_whitespace s = true.
Proof.
  unfold trim, trimEnd.
  rewrite <- (trimStart_keeps_blackness s), <- (forallb_rev _ (trimStart s)).
  rewrite <- trimStart_nil_iff.
  split; intro H.
  - apply (f_equal (@rev N)) in H. now rewrite rev_involutive in H.
  - now rewrite H.
Qed.

Lemma truthy_str_nonempty (s : jstr) : truthy_str s = true <-> s <> [].
Proof. destruct s; simpl; split; congruence. Qed.

Lemma trim_nonempty_source (s : jstr) : trim s <> [] -> s <> [].
Proof. intros H ->. now apply H. Qed.

Lemma jstr_eqb_eq (a b : jstr) : jstr_eqb a b = true <-> a = b.
Proof. unfold jstr_eqb. destruct (list_eq_dec N.eq_dec a b); split; congruence. Qed.

(** ** api.ts *)

Lemma watermark_given_iff (wm : option jstr) :
  Api.watermark_given wm = true <-> exists w, wm = Some w /\ trim w <> [].
Proof.
  destruct wm as [w|]; simpl.
  - rewrite andb_true_iff, !truthy_str_nonempty. split.
    + intros [_ H]. now exists w.
    + intros (w' & [= <-] & H). split; [now apply trim_nonempty_source|exact H].
  - split; [discriminate|]. now intros (w & [=] & _).
Qed.

Lemma files_form (files : list File) (acc : FormData) :
  fold_left (fun fd file => fd_append fd (lit "files") (FileValue file)) files acc
  = acc ++ map (fun file => (lit "files", FileValue file)) files.
Proof.
  revert acc. induction files as [|f files IH]; intro acc; simpl.
  - now rewrite app_nil_r.
  - rewrite IH. unfold fd_append. now rewrite <- app_assoc.
Qed.

Lemma files_only_no_watermark (files : list File) :
  has_field (lit "watermark_text")
            (map (fun file => (lit "files", FileValue file)) files) = false.
Proof. induction files as [|f files IH]; simpl; [reflexivity|exact IH]. Qed.

Lemma files_only_no_text (name : jstr) (files : list File) :
  text_fields name (map (fun file => (lit "files", FileValue file)) files) = [].
Proof. induction files as [|f files IH]; simpl; [reflexivity|exact IH]. Qed.

Lemma files_only_files (files : list File) :
  file_fields (lit "files")
              (map (fun file => (lit "files", FileValue file)) files) = files.
Proof.
  induction files as [|f files IH]; [reflexivity|].
  unfold file_fields in *. cbn [map flat_map fst snd].
  rewrite IH.
  assert (E : jstr_eqb (lit "files") (lit "files") = true) by now apply jstr_eqb_eq.
  now rewrite E.
Qed.

Lemma text_fields_app (name : jstr) (a b : FormData) :
  text_fields name (a ++ b) = text_fields name a ++ text_fields name b.
Proof. unfold text_fields. apply flat_map_app. Qed.

Lemma build_form_watermark (files : list File) (wm : option jstr) :
  has_field (lit "watermark_text") (Api.build_form files wm)
  = Api.watermark_given wm.
Proof.
  unfold Api.build_form. rewrite files_form. simpl app.
  destruct wm as [w|]; [|apply files_only_no_watermark].
  destruct (Api.watermark_given (Some w)); [|apply files_only_no_watermark].
  unfold fd_append, has_field. rewrite existsb_app. simpl.
  apply orb_true_r.
Qed.

Lemma build_form_text (files : list File) (wm : option jstr) :
  text_fields (lit "watermark_text") (Api.build_form files wm)
  = match wm with
    | Some w => if Api.watermark_given wm then [w] else []
    | None => []
    end.
Proof.
  unfold Api.build_form. rewrite files_form. simpl app.
  destruct wm as [w|]; [|apply files_only_no_text].
  destruct (Api.watermark_given (Some w)); [|apply files_only_no_text].
  unfold fd_append. rewrite text_fields_app, files_only_no_text.
  unfold text_fields. cbn [flat_map fst snd app].
  assert (E : jstr_eqb (lit "watermark_text") (lit "watermark_text") = true)
    by now apply jstr_eqb_eq.
  now rewrite E.
Qed.

Lemma file_fields_app (name : jstr) (a b : FormData) :
  file_fields name (a ++ b) = file_fields name a ++ file_fields name b.
Proof. unfold file_fields. apply flat_map_app. Qed.

(** The posted form carries the files as given, in order. *)
Lemma build_form_files (files : list File) (wm : option jstr) :
  file_fields (lit "files") (Api.build_form files wm) = files.
Proof.
  unfold Api.build_form. rewrite files_form. simpl app.
  destruct wm as [w|]; [|apply files_only_files].
  destruct (Api.watermark_given (Some w)); [|apply files_only_files].
  unfold fd_append. rewrite file_fields_app, files_only_files.
  unfold file_fields. cbn [flat_map snd app]. apply app_nil_r.
Qed.

Lemma generateImage_posts backend (files : list File) (wm : option jstr) (w : Api.World) :
  (1 <= List.length files <= 5)%nat ->
  Api.requests (fst (Api.generateImage backend files wm w))
  = Api.requests w ++ [generate_request files wm].
Proof.
  intros [Hlo Hhi]. unfold Api.generateImage.
  destruct (Nat.eqb_spec (List.length files) 0) as [E|_]; [lia|].
  destruct (Nat.ltb_spec 5 (List.length files)) as [E|_]; [lia|].
  unfold Api.bind at 1. unfold Api.fetch.
  change (Api.API_BASE ++ lit "/api/generate-image")
    with (lit "http://localhost:8000/api/generate-image").
  fold (generate_request files wm).
  destruct (backend (generate_request files wm)) as [t|resp]; [reflexivity|].
  destruct (ok resp); simpl.
  - unfold Api.bind, Api.response_json.
    destruct (json resp) as [p|]; [|reflexivity].
    unfold Api.resolve, Api.when, Api.console_log.
    destruct (mock_mode p), (watermark_embedded p); reflexivity.
  - unfold Api.bind, Api.try_catch, Api.response_json.
    destruct (json resp) as [p|]; reflexivity.
Qed.

Lemma generateImage_outcome backend (files : list File) (wm : option jstr) (w : Api.World) :
  (1 <= List.length files <= 5)%nat ->
  snd (Api.generateImage backend files wm w)
  = generate_outcome (backend (generate_request files wm)).
Proof.
  intros [Hlo Hhi]. unfold Api.generateImage.
  destruct (Nat.eqb_spec (List.length files) 0) as [E|_]; [lia|].
  destruct (Nat.ltb_spec 5 (List.length files)) as [E|_]; [lia|].
  unfold Api.bind at 1. unfold Api.fetch.
  change (Api.API_BASE ++ lit "/api/generate-image")
    with (lit "http://localhost:8000/api/generate-image").
  fold (generate_request files wm).
  destruct (backend (generate_request files wm)) as [t|resp]; [reflexivity|].
  unfold generate_outcome. destruct (ok resp); simpl.
  - unfold Api.bind, Api.response_json.
    destruct (json resp) as [p|]; [|reflexivity].
    unfold Api.resolve, Api.when, Api.console_log.
    destruct (mock_mode p), (watermark_embedded p); reflexivity.
  - unfold Api.bind, Api.try_catch, Api.response_json.
    destruct (json resp) as [p|]; reflexivity.
Qed.

(** C4: with a valid file list, the posted form carries the field
    [watermark_text] exactly when the given watermark text is not empty
    after trimming, and then it carries the text as given; an omitted,
    empty or whitespace-only text sends no such field. *)
Theorem generateImage_watermark_field
    backend (files : list File) (wm : option jstr) (w : Api.World) :
  (1 <= List.length files <= 5)%nat ->
  exists fd : FormData,
    Api.requests (fst (Api.generateImage backend files wm w))
    = Api.requests w ++
      [{| req_url := lit "http://localhost:8000/api/generate-image";
          req_method := POST; req_body := Some fd |}] /\
    (has_field (lit "watermark_text") fd = true
     <-> exists t, wm = Some t /\ trim t <> []) /\
    (forall t, wm = Some t -> trim t <> [] ->
               text_fields (lit "watermark_text") fd = [t]) /\
    (wm = None \/ wm = Some [] \/
     (exists t, wm = Some t /\ forallb is_whitespace t = true) ->
     has_field (lit "watermark_text") fd = false /\
     text_fields (lit "watermark_text") fd = []).
Proof.
  intro Hn. exists (Api.build_form files wm).
  split; [now apply generateImage_posts|].
  rewrite build_form_watermark, build_form_text.
  split; [apply watermark_given_iff|]. split.
  - intros t -> Ht.
    assert (G : Api.watermark_given (Some t) = true)
      by (apply watermark_given_iff; now exists t).
    now rewrite G.
  - intros H.
    assert (G : Api.watermark_given wm = false).
    { destruct (Api.watermark_given wm) eqn:E; [|reflexivity].
      apply watermark_given_iff in E. destruct E as (t & -> & Ht).
      destruct H as [H|[H|(t' & H & Hws)]]; try discriminate.
      - injection H as ->. now contradiction Ht.
      - injection H as ->. apply trim_nil_iff in Hws. contradiction. }
    rewrite G. split; [reflexivity|]. now destruct wm.
Qed.

Lemma generateImage_watermark_field_witness :
  exists fd : FormData,
    Api.requests (fst (Api.generateImage (backend_returning (lit "QUJD"))
                         [portrait] (Some (lit " key-42 ")) Api.empty_world))
    = [{| req_url := lit "http://localhost:8000/api/generate-image";
          req_method := POST; req_body := Some fd |}] /\
    text_fields (lit "watermark_text") fd = [lit " key-42 "].
Proof.
  destruct (generateImage_watermark_field (backend_returning (lit "QUJD"))
              [portrait] (Some (lit " key-42 ")) Api.empty_world)
    as (fd & Hreq & _ & Htext & _).
  - simpl. lia.
  - exists fd. split; [exact Hreq|].
    apply Htext; [reflexivity|]. vm_compute. discriminate.
Defined.

(** C7: an empty file list rejects with "At least one reference image is
    required" and more than five files with "Maximum 5 reference images
    allowed", both with no request issued; one to five files are posted to
    [/api/generate-image], and an ok response whose body parses resolves to
    the data URL of its [image] field. *)
Theorem generateImage_contract
    backend (files : list File) (wm : option jstr) (w : Api.World) :
  (files = [] ->
   Api.generateImage backend files wm w
   = (w, inl (ErrorObj (lit "At least one reference image is required")))) /\
  ((5 < List.length files)%nat ->
   Api.generateImage backend files wm w
   = (w, inl (ErrorObj (lit "Maximum 5 reference images allowed")))) /\
  ((1 <= List.length files <= 5)%nat ->
   Api.requests (fst (Api.generateImage backend files wm w))
   = Api.requests w ++ [generate_request files wm] /\
   forall resp data,
     backend (generate_request files wm) = Responded resp ->
     ok resp = true -> json resp = Some data ->
     snd (Api.generateImage backend files wm w)
     = inr (lit "data:image/png;base64," ++ image data)).
Proof.
  split; [|split].
  - now intros ->.
  - intro H. unfold Api.generateImage.
    destruct (Nat.eqb_spec (List.length files) 0) as [E|_]; [lia|].
    destruct (Nat.ltb_spec 5 (List.length files)) as [_|E]; [reflexivity|lia].
  - intro H. split; [now apply generateImage_posts|].
    intros resp data Hb Hok Hjson.
    rewrite generateImage_outcome by exact H.
    unfold generate_outcome. now rewrite Hb, Hok, Hjson.
Qed.

Lemma generateImage_contract_witness :
  Api.generateImage backend_down [] None Api.empty_world
  = (Api.empty_world,
     inl (ErrorObj (lit "At least one reference image is required"))) /\
  Api.generateImage backend_down
    [portrait; landscape; portrait; landscape; portrait; landscape]
    None Api.empty_world
  = (Api.empty_world,
     inl (ErrorObj (lit "Maximum 5 reference images allowed"))) /\
  snd (Api.generateImage (backend_returning (lit "QUJD"))
         [portrait; landscape] None Api.empty_world)
  = inr (lit "data:image/png;base64,QUJD").
Proof.
  split; [|split].
  - apply (generateImage_contract backend_down [] None Api.empty_world).
    reflexivity.
  - apply (generateImage_contract backend_down
             [portrait; landscape; portrait; landscape; portrait; landscape]
             None Api.empty_world).
    simpl. lia.
  - assert (Hn : (1 <= List.length [portrait; landscape] <= 5)%nat)
      by (simpl; lia).
    exact (proj2 (proj2 (proj2 (generateImage_contract
                                  (backend_returning (lit "QUJD"))
                                  [portrait; landscape] None Api.empty_world))
                   Hn)
             _ _ eq_refl eq_refl eq_refl).
Defined.

(** C9: [healthCheck] always resolves, to [true] exactly when the fetch
    of [/health] answers with an ok status, and to [false] on a non-ok
    status and on a network failure. *)
Theorem healthCheck_total backend (w : Api.World) :
  exists b : bool,
    snd (Api.healthCheck backend w) = inr b /\
    Api.requests (fst (Api.healthCheck backend w))
    = Api.requests w ++ [{| req_url := lit "http://localhost:8000/health";
                            req_method := GET; req_body := None |}] /\
    (b = true <->
     exists resp,
       backend {| req_url := lit "http://localhost:8000/health";
                  req_method := GET; req_body := None |} = Responded resp /\
       ok resp = true).
Proof.
  unfold Api.healthCheck, Api.try_catch, Api.bind, Api.fetch, Api.resolve.
  change (Api.API_BASE ++ lit "/health") with (lit "http://localhost:8000/health").
  destruct (backend _) as [t|resp] eqn:E.
  - exists false. repeat split; try discriminate.
    intros (resp & [=] & _).
  - exists (ok resp). repeat split.
    + intro H. now exists resp.
    + now intros (resp' & [= <-] & H).
Qed.

(** ** CreationScreen.tsx *)

Lemma filter_from_length_le {A} (keep : Z -> bool) (l : list A) (i : Z) :
  (List.length (filter_from keep i l) <= List.length l)%nat.
Proof.
  revert i. induction l as [|x l IH]; intro i; simpl; [lia|].
  specialize (IH (i + 1)). destruct (keep i); simpl; lia.
Qed.

Lemma filter_from_same_length {A B} (keep : Z -> bool) (l : list A) (m : list B) :
  List.length l = List.length m ->
  forall i, List.length (filter_from keep i l) = List.length (filter_from keep i m).
Proof.
  revert m. induction l as [|x l IH]; intros [|y m] H i; simpl in *;
    try discriminate; [reflexivity|].
  injection H as H. specialize (IH m H (i + 1)).
  destruct (keep i); simpl; congruence.
Qed.

Lemma slice0_positive {A} (n : Z) (l : list A) :
  0 < n -> slice0 n l = firstn (Z.to_nat n) l.
Proof. intro H. unfold slice0. destruct (Z.ltb_spec n 0); [lia|reflexivity]. Qed.

Lemma handleFiles_sources createObjectURL (files : list File) (s : Creation.State) :
  Creation.sourceImages (Creation.handleFiles createObjectURL files s)
  = Creation.sourceImages s
    ++ firstn (Z.to_nat (5 - len (Creation.sourceImages s))) files.
Proof.
  unfold Creation.handleFiles.
  destruct (Z.leb_spec (5 - len (Creation.sourceImages s)) 0) as [H|H].
  - replace (Z.to_nat (5 - len (Creation.sourceImages s))) with 0%nat by lia.
    simpl. now rewrite app_nil_r.
  - simpl. now rewrite slice0_positive.
Qed.

Lemma handleFiles_library_ok createObjectURL (files : list File) (s : Creation.State) :
  Creation.library_ok s ->
  Creation.library_ok (Creation.handleFiles createObjectURL files s).
Proof.
  intros (Hcap & Hlen & Hidx). unfold Creation.handleFiles.
  destruct (Z.leb_spec (5 - len (Creation.sourceImages s)) 0) as [H|H];
    [now repeat split|].
  rewrite slice0_positive by exact H.
  unfold Creation.library_ok, len in *.
  cbn [Creation.sourceImages Creation.previewUrls Creation.activeIndex].
  rewrite !length_app, length_map.
  pose proof (firstn_le_length
                (Z.to_nat (5 - Z.of_nat (List.length (Creation.sourceImages s))))
                files) as Hf.
  pose proof (length_firstn
                (Z.to_nat (5 - Z.of_nat (List.length (Creation.sourceImages s))))
                files) as Hg.
  repeat split; try lia.
  - destruct (Z.eqb_spec (Z.of_nat (List.length (Creation.sourceImages s))) 0); lia.
  - destruct (Z.eqb_spec (Z.of_nat (List.length (Creation.sourceImages s))) 0); lia.
Qed.

Lemma removeImage_library_ok (index : Z) (s : Creation.State) :
  Creation.library_ok s -> Creation.library_ok (Creation.removeImage index s).
Proof.
  intros (Hcap & Hlen & Hidx). unfold Creation.library_ok, Creation.removeImage, len in *.
  cbn [Creation.sourceImages Creation.previewUrls Creation.activeIndex].
  pose proof (filter_from_length_le (fun i => negb (i =? index))
                (Creation.sourceImages s) 0) as Hle.
  fold (filter_index (fun i => negb (i =? index)) (Creation.sourceImages s)) in Hle.
  repeat split.
  - lia.
  - unfold filter_index. now apply filter_from_same_length.
  - destruct (Z.leb_spec
                (Z.of_nat (List.length
                   (filter_index (fun i => negb (i =? index)) (Creation.sourceImages s))))
                (Creation.activeIndex s)); lia.
  - destruct (Z.leb_spec
                (Z.of_nat (List.length
                   (filter_index (fun i => negb (i =? index)) (Creation.sourceImages s))))
                (Creation.activeIndex s)); lia.
Qed.

Lemma reset_library_ok (s : Creation.State) : Creation.library_ok (Creation.reset s).
Proof. unfold Creation.library_ok, len. simpl. lia. Qed.

Lemma initial_library_ok : Creation.library_ok Creation.initial.
Proof. unfold Creation.library_ok, len. simpl. lia. Qed.

(** C8: [handleFiles], [removeImage] and [reset] keep the library within
    five files, with one preview URL per file and the active index between
    0 and [max(0, length - 1)]; [handleFiles] takes from a batch only what
    fills the free slots. *)
Theorem library_invariant_preserved createObjectURL (s : Creation.State) :
  Creation.library_ok s ->
  (forall files,
     Creation.library_ok (Creation.handleFiles createObjectURL files s) /\
     Creation.sourceImages (Creation.handleFiles createObjectURL files s)
     = Creation.sourceImages s
       ++ firstn (Z.to_nat (5 - len (Creation.sourceImages s))) files) /\
  (forall index, Creation.library_ok (Creation.removeImage index s)) /\
  Creation.library_ok (Creation.reset s).
Proof.
  intro H. split; [|split].
  - intro files. split; [now apply handleFiles_library_ok|apply handleFiles_sources].
  - intro index. now apply removeImage_library_ok.
  - apply reset_library_ok.
Qed.

Lemma library_invariant_preserved_witness :
  Creation.library_ok four_loaded /\
  List.length (Creation.sourceImages
                 (Creation.handleFiles blob_url [landscape; portrait; landscape]
                    four_loaded)) = 5%nat /\
  Creation.library_ok (Creation.removeImage 3 four_loaded).
Proof.
  assert (H0 : Creation.library_ok four_loaded).
  { unfold Creation.library_ok, len. vm_compute.
    repeat split; try reflexivity; discriminate. }
  destruct (library_invariant_preserved blob_url four_loaded H0) as (Hf & Hr & _).
  split; [exact H0|]. split.
  - rewrite (proj2 (Hf [landscape; portrait; landscape])). reflexivity.
  - apply Hr.
Defined.






(** ** App.tsx *)



(** ** DetectionScreen.tsx *)

Lemma all_consistent_snoc h e :
  all_consistent h -> Detection.consistent (snd e) = true ->
  all_consistent (h ++ [e]).
Proof.
  intros H He. apply Forall_app. split; [exact H|]. now constructor.
Qed.

Lemma schedule_scan (c : Z) :
  Detection.schedule {| Detection.due := c + 4500; Detection.callback_of := Detection.finish_cb |}
    (Detection.schedule {| Detection.due := c + 3000; Detection.callback_of := Detection.extract_cb |}
       (Detection.schedule {| Detection.due := c + 1500; Detection.callback_of := Detection.analyze_cb |} []))
  = [ {| Detection.due := c + 1500; Detection.callback_of := Detection.analyze_cb |};
      {| Detection.due := c + 3000; Detection.callback_of := Detection.extract_cb |};
      {| Detection.due := c + 4500; Detection.callback_of := Detection.finish_cb |} ].
Proof.
  cbn [Detection.schedule Detection.due].
  destruct (Z.ltb_spec (c + 3000) (c + 1500)); [lia|].
  cbn [Detection.schedule Detection.due].
  destruct (Z.ltb_spec (c + 4500) (c + 1500)); [lia|].
  destruct (Z.ltb_spec (c + 4500) (c + 3000)); [lia|].
  reflexivity.
Qed.

Ltac snoc_consistent :=
  repeat (apply all_consistent_snoc; [|reflexivity || (simpl; congruence)]).

Lemma processFile_page_inv createObjectURL (file : File) (t : Z) (w : Detection.World) :
  page_inv w ->
  page_inv (Detection.dispatch (Detection.processFile createObjectURL file) t w).
Proof.
  destruct w as [[img pu sc cp md vs] c tm rq h].
  unfold page_inv, Detection.dispatch. simpl.
  intros (Hh & Hrq & [(Hs & Htm & Hvs)|(Hs & Hcp & Htm)]); subst.
  - split; [|split; [reflexivity|left; now repeat split]].
    unfold Detection.set_state; simpl.
    repeat (apply all_consistent_snoc; [|reflexivity]). exact Hh.
  - split; [|split; [reflexivity|right; now repeat split]].
    unfold Detection.set_state; simpl.
    repeat (apply all_consistent_snoc; [|reflexivity]). exact Hh.
Qed.

Lemma step_page_inv createObjectURL (w w' : Detection.World) :
  page_inv w -> Detection.step createObjectURL w w' -> page_inv w'.
Proof.
  intros Hinv Hstep. destruct Hstep as [e t w Hen Ht|w w' Hfire].
  - destruct e as [[|file files]|file| |]; cbn [Detection.handler Detection.handleDrop].
    + (* a drop without a file *)
      destruct w as [s c tm rq h]. exact Hinv.
    + now apply processFile_page_inv.
    + now apply processFile_page_inv.
    + (* INITIATE SCAN *)
      destruct w as [[img pu sc cp md vs] c tm rq h].
      unfold page_inv, Detection.dispatch in *. simpl in *.
      destruct img as [f|]; [|destruct cp; discriminate].
      destruct cp; [discriminate|]. destruct sc; [discriminate|].
      destruct Hinv as (Hh & Hrq & [(_ & Htm & Hvs)|(Hs & _)]); [|discriminate].
      subst. simpl.
      unfold Detection.set_state; simpl.
      split; [snoc_consistent; exact Hh|]. split; [reflexivity|].
      right. split; [reflexivity|]. split; [reflexivity|].
      destruct (Z.ltb_spec (Z.max c t + 3000) (Z.max c t + 1500)); [lia|].
      simpl.
      destruct (Z.ltb_spec (Z.max c t + 4500) (Z.max c t + 1500)); [lia|].
      destruct (Z.ltb_spec (Z.max c t + 4500) (Z.max c t + 3000)); [lia|].
      simpl. now left.
    + (* ANALYZE ANOTHER ASSET *)
      destruct w as [[img pu sc cp md vs] c tm rq h].
      unfold page_inv, Detection.dispatch in *. simpl in *. subst cp.
      destruct Hinv as (Hh & Hrq & [(Hs & Htm & _)|(_ & Hcp & _)]); [|discriminate].
      subst. unfold Detection.set_state; simpl.
      split; [snoc_consistent; exact Hh|]. split; [reflexivity|].
      left. now repeat split.
  - (* a timer fires *)
    destruct w as [[img pu sc cp md vs] c tm rq h].
    unfold page_inv, Detection.fire in *. simpl in *.
    destruct tm as [|[d cb] rest]; [discriminate|].
    injection Hfire as <-.
    destruct Hinv as (Hh & Hrq & [(_ & Htm & _)|(Hs & Hcp & Hshape)]); [discriminate|].
    subst. simpl in Hshape.
    destruct Hshape as [E|[E|[E|[]]]]; injection E as <- E;
      unfold Detection.set_state; simpl.
    + split; [snoc_consistent; exact Hh|]. split; [reflexivity|].
      right. rewrite <- E. simpl. tauto.
    + split; [snoc_consistent; exact Hh|]. split; [reflexivity|].
      right. rewrite <- E. simpl. tauto.
    + symmetry in E. apply map_eq_nil in E. subst rest.
      split; [snoc_consistent; exact Hh|]. split; [reflexivity|].
      left. repeat split. discriminate.
Qed.

Lemma boot_page_inv : page_inv Detection.boot.
Proof.
  unfold page_inv. simpl. split; [constructor|]. split; [reflexivity|].
  left. now repeat split.
Qed.

Lemma reachable_page_inv createObjectURL (w : Detection.World) :
  Detection.reachable createObjectURL w -> page_inv w.
Proof.
  induction 1 as [|w w' _ IH Hstep]; [apply boot_page_inv|].
  now apply (step_page_inv createObjectURL w w').
Qed.


(** One uninterrupted scan, from a page on which the scan button can be
    clicked. *)
Lemma scan_run (w : Detection.World) (t : Z) :
  page_inv w ->
  Detection.enabled Detection.ClickScan (Detection.ui w) = true ->
  Detection.clock w <= t ->
  let w' := Detection.settle (Detection.dispatch Detection.handleScan t w) in
  (exists l,
     Detection.history w' = Detection.history w ++ l /\
     map Detection.progress l
     = [ (t, 0, true, false); (t, 1, true, false);
         (t + 1500, 2, true, false); (t + 3000, 3, true, false);
         (t + 4500, 3, false, false); (t + 4500, 3, false, true);
         (t + 4500, 3, false, true) ] /\
     all_consistent l) /\
  Detection.timers w' = [] /\
  Detection.requests w' = [] /\
  Detection.clock w' = t + 4500 /\
  Detection.ui w'
  = {| Detection.image := Detection.image (Detection.ui w);
       Detection.previewUrl := Detection.previewUrl (Detection.ui w);
       Detection.isScanning := false;
       Detection.scanComplete := true;
       Detection.metadata := Some Detection.FAKE_METADATA;
       Detection.verificationStep := 3 |}.
Proof.
  destruct w as [[img pu sc cp md vs] c tm rq h].
  unfold page_inv. cbn [Detection.ui Detection.clock Detection.timers
                        Detection.requests Detection.history Detection.enabled
                        Detection.image Detection.isScanning
                        Detection.scanComplete Detection.verificationStep
                        Detection.previewUrl].
  intros (Hh & Hrq & Hmode) Hen Ht.
  destruct img as [f|]; [|destruct cp; discriminate].
  destruct cp; [discriminate|]. destruct sc; [discriminate|].
  destruct Hmode as [(_ & Htm & Hvs)|(Hs & _)]; [|discriminate].
  specialize (Hvs eq_refl). subst tm rq vs.
  unfold Detection.dispatch, Detection.advance, Detection.handleScan.
  cbn [Detection.ui Detection.clock Detection.timers Detection.requests
       Detection.history Detection.image fold_left Detection.exec
       Detection.set_state Detection.apply_setter Detection.isScanning
       Detection.scanComplete Detection.verificationStep Detection.previewUrl
       Detection.metadata].
  rewrite (Z.max_r c t) by exact Ht.
  rewrite schedule_scan.
  unfold Detection.settle.
  cbn [Detection.timers List.length Detection.run_timers Detection.fire
       Detection.ui Detection.clock Detection.requests Detection.history
       Detection.due Detection.callback_of Detection.analyze_cb
       Detection.extract_cb Detection.finish_cb fold_left Detection.set_state
       Detection.apply_setter Detection.image Detection.isScanning
       Detection.scanComplete Detection.verificationStep Detection.previewUrl
       Detection.metadata].
  rewrite (Z.max_r t (t + 1500)) by lia.
  rewrite (Z.max_r (t + 1500) (t + 3000)) by lia.
  rewrite (Z.max_r (t + 3000) (t + 4500)) by lia.
  repeat split.
  rewrite <- !app_assoc. cbn [app].
  eexists. split; [reflexivity|]. split; [reflexivity|].
  repeat constructor.
Qed.

Lemma run_timers_reachable createObjectURL (n : nat) (w : Detection.World) :
  Detection.reachable createObjectURL w ->
  Detection.reachable createObjectURL (Detection.run_timers n w).
Proof.
  revert w. induction n as [|n IH]; intros w Hw; simpl; [exact Hw|].
  destruct (Detection.fire w) as [w'|] eqn:E; [|exact Hw].
  apply IH. apply (Detection.reach_step createObjectURL w w' Hw).
  now apply Detection.step_timer.
Qed.

Lemma scan_reachable createObjectURL (w : Detection.World) (t : Z) :
  Detection.reachable createObjectURL w ->
  Detection.enabled Detection.ClickScan (Detection.ui w) = true ->
  Detection.clock w <= t ->
  Detection.reachable createObjectURL
    (Detection.settle (Detection.dispatch Detection.handleScan t w)).
Proof.
  intros Hw Hen Ht. apply run_timers_reachable.
  apply (Detection.reach_step createObjectURL w _ Hw).
  exact (Detection.step_user createObjectURL Detection.ClickScan t w Hen Ht).
Qed.


Lemma asset_dropped_reachable : Detection.reachable blob_url asset_dropped.
Proof.
  apply (Detection.reach_step blob_url Detection.boot); [apply Detection.reach_boot|].
  apply (Detection.step_user blob_url (Detection.DropFiles [portrait]) 10
           Detection.boot); [reflexivity|simpl; lia].
Defined.

Lemma other_asset_chosen_reachable : Detection.reachable blob_url other_asset_chosen.
Proof.
  apply (Detection.reach_step blob_url Detection.boot); [apply Detection.reach_boot|].
  apply (Detection.step_user blob_url (Detection.ChooseFile landscape) 250
           Detection.boot); [reflexivity|simpl; lia].
Defined.



(** C1: whatever file was uploaded, a scan issues no network request
    and ends on the same verdict: scanning over, scan complete, step 3 and
    the fixed metadata text.  Two scans of two files differ in nothing the
    result panel shows, and the file itself is left as it was. *)
Theorem scan_verdict_ignores_file
    createObjectURL (w1 w2 : Detection.World) (t1 t2 : Z) (f1 f2 : File) :
  Detection.reachable createObjectURL w1 ->
  Detection.reachable createObjectURL w2 ->
  Detection.image (Detection.ui w1) = Some f1 ->
  Detection.image (Detection.ui w2) = Some f2 ->
  Detection.enabled Detection.ClickScan (Detection.ui w1) = true ->
  Detection.enabled Detection.ClickScan (Detection.ui w2) = true ->
  Detection.clock w1 <= t1 -> Detection.clock w2 <= t2 ->
  let r1 := Detection.settle (Detection.dispatch Detection.handleScan t1 w1) in
  let r2 := Detection.settle (Detection.dispatch Detection.handleScan t2 w2) in
  Detection.metadata (Detection.ui r1)
  = Some (lit "PROVENANCE_KEY_VERIFIED: 0x92f...a12b" ++ [10%N] ++
          lit "TIMESTAMP: 2024-12-06T19:42:00Z" ++ [10%N] ++
          lit "ORIGIN: NEXUS_TERMINAL_ALPHA" ++ [10%N] ++
          lit "INTEGRITY: 100%") /\
  Detection.verdict (Detection.ui r1) = Detection.verdict (Detection.ui r2) /\
  Detection.requests r1 = [] /\ Detection.requests r2 = [] /\
  Detection.image (Detection.ui r1) = Some f1 /\
  Detection.image (Detection.ui r2) = Some f2.
Proof.
  intros Hw1 Hw2 Hf1 Hf2 Hen1 Hen2 Ht1 Ht2 r1 r2.
  destruct (scan_run w1 t1 (reachable_page_inv createObjectURL w1 Hw1) Hen1 Ht1)
    as (_ & _ & Hrq1 & _ & Hui1).
  destruct (scan_run w2 t2 (reachable_page_inv createObjectURL w2 Hw2) Hen2 Ht2)
    as (_ & _ & Hrq2 & _ & Hui2).
  fold r1 in Hrq1, Hui1. fold r2 in Hrq2, Hui2.
  rewrite Hui1, Hui2. unfold Detection.verdict. simpl.
  repeat split; assumption.
Qed.

Lemma scan_verdict_ignores_file_witness :
  Detection.verdict
    (Detection.ui (Detection.settle
                     (Detection.dispatch Detection.handleScan 100 asset_dropped)))
  = Detection.verdict
      (Detection.ui (Detection.settle
                       (Detection.dispatch Detection.handleScan 7000
                          other_asset_chosen))).
Proof.
  assert (Ht1 : Detection.clock asset_dropped <= 100) by (vm_compute; discriminate).
  assert (Ht2 : Detection.clock other_asset_chosen <= 7000)
    by (vm_compute; discriminate).
  exact (proj1 (proj2 (scan_verdict_ignores_file blob_url
                         asset_dropped other_asset_chosen 100 7000
                         portrait landscape
                         asset_dropped_reachable other_asset_chosen_reachable
                         eq_refl eq_refl eq_refl eq_refl Ht1 Ht2))).
Defined.

(** The upload area takes a drop while a scan runs ([handleDrop] does not
    look at isScanning): the step shown goes back to 0, the two callbacks
    left still fire in order, and the verdict is the usual one, now next to
    the file that was dropped. *)
Example mid_scan_drop :
  map Detection.progress
      (skipn 7 (Detection.since asset_dropped (Detection.settle dropped_mid_scan)))
  = [ (2000, 0, true, false); (3100, 3, true, false);
      (4600, 3, false, false); (4600, 3, false, true);
      (4600, 3, false, true) ] /\
  Detection.image (Detection.ui (Detection.settle dropped_mid_scan))
  = Some landscape /\
  Detection.metadata (Detection.ui (Detection.settle dropped_mid_scan))
  = Some Detection.FAKE_METADATA.
Proof. repeat split. Qed.

(** * Further properties *)

(** ** api.ts: how [generateImage] fails, what it sends and logs *)

Lemma generateImage_invalid backend (files : list File) (wm : option jstr) (w : Api.World) :
  ~ (1 <= List.length files <= 5)%nat ->
  exists msg, Api.generateImage backend files wm w = (w, inl (ErrorObj msg)).
Proof.
  intro H. unfold Api.generateImage.
  destruct (Nat.eqb_spec (List.length files) 0) as [E|E];
    [eexists; reflexivity|].
  destruct (Nat.ltb_spec 5 (List.length files)) as [F|F];
    [eexists; reflexivity|exfalso; lia].
Qed.

Lemma generate_outcome_resolved (o : FetchOutcome) (url : jstr) :
  generate_outcome o = inr url <->
  exists resp data,
    o = Responded resp /\ ok resp = true /\ json resp = Some data /\
    url = lit "data:image/png;base64," ++ image data.
Proof.
  unfold generate_outcome. split.
  - destruct o as [t|resp]; [discriminate|].
    destruct (ok resp) eqn:Hok; [|discriminate].
    destruct (json resp) as [data|] eqn:Hj; [|discriminate].
    intros [= <-]. now exists resp, data.
  - intros (resp & data & -> & -> & -> & ->). reflexivity.
Qed.




(** X3: the form [generateImage] posts lists every file under the name
    [files], in the order given, and after them at most one
    [watermark_text]; it has no other entry. *)
Theorem generateImage_form_layout (files : list File) (wm : option jstr) :
  file_fields (lit "files") (Api.build_form files wm) = files /\
  map fst (Api.build_form files wm)
  = repeat (lit "files") (List.length files)
    ++ (if Api.watermark_given wm then [lit "watermark_text"] else []).
Proof.
  split; [apply build_form_files|].
  unfold Api.build_form. rewrite files_form. cbn [app].
  assert (E : forall l : list File,
             map fst (map (fun file => (lit "files", FileValue file)) l)
             = repeat (lit "files") (List.length l)).
  { induction l as [|f l IH]; [reflexivity|]. cbn [map List.length repeat fst].
    now rewrite IH. }
  destruct wm as [t|]; cbn [Api.watermark_given].
  - change (truthy_str t && truthy_str (trim t))
      with (Api.watermark_given (Some t)).
    destruct (Api.watermark_given (Some t)).
    + unfold fd_append. rewrite map_app, E. reflexivity.
    + now rewrite E, app_nil_r.
  - now rewrite E, app_nil_r.
Qed.

Lemma console_after_valid_call
    backend (files : list File) (wm : option jstr) (w : Api.World) :
  (1 <= List.length files <= 5)%nat ->
  Api.console (fst (Api.generateImage backend files wm w))
  = Api.console w
    ++ match backend (generate_request files wm) with
       | Responded {| ok := true; json := Some data |} =>
           (if mock_mode data
            then [lit "[API] Backend is in mock mode - returning reference image"]
            else [])
           ++ (if watermark_embedded data
               then [lit "[API] Watermark embedded successfully"]
               else [])
       | _ => []
       end.
Proof.
  intros [Hlo Hhi]. unfold Api.generateImage.
  destruct (Nat.eqb_spec (List.length files) 0) as [E|_]; [lia|].
  destruct (Nat.ltb_spec 5 (List.length files)) as [E|_]; [lia|].
  unfold Api.bind at 1. unfold Api.fetch.
  change (Api.API_BASE ++ lit "/api/generate-image")
    with (lit "http://localhost:8000/api/generate-image").
  fold (generate_request files wm).
  destruct (backend (generate_request files wm)) as [t|[[|] st [p|]]];
    cbn [ok json negb fst Api.console]; try (now rewrite app_nil_r).
  all: unfold Api.bind, Api.try_catch, Api.response_json; cbn [json];
    unfold Api.resolve, Api.throw, Api.when, Api.console_log;
    try (cbn; now rewrite app_nil_r).
  destruct (mock_mode p), (watermark_embedded p); cbn;
    rewrite <- ?app_assoc, ?app_nil_r; reflexivity.
Qed.

(** X4: [generateImage] writes to the console only when it resolves:
    the mock-mode line if the body says [mock_mode], then the watermark
    line if it says [watermark_embedded].  A rejected call logs nothing. *)
Theorem generateImage_console
    backend (files : list File) (wm : option jstr) (w : Api.World) :
  (forall t, snd (Api.generateImage backend files wm w) = inl t ->
             Api.console (fst (Api.generateImage backend files wm w))
             = Api.console w) /\
  (forall resp data,
     (1 <= List.length files <= 5)%nat ->
     backend (generate_request files wm) = Responded resp ->
     ok resp = true -> json resp = Some data ->
     Api.console (fst (Api.generateImage backend files wm w))
     = Api.console w
       ++ (if mock_mode data
           then [lit "[API] Backend is in mock mode - returning reference image"]
           else [])
       ++ (if watermark_embedded data
           then [lit "[API] Watermark embedded successfully"]
           else [])).
Proof.
  split.
  - intros t Ht.
    assert (D : (1 <= List.length files <= 5)%nat
                \/ ~ (1 <= List.length files <= 5)%nat) by lia.
    destruct D as [Hn|Hn].
    + rewrite (console_after_valid_call backend files wm w Hn).
      rewrite (generateImage_outcome backend files wm w Hn) in Ht.
      unfold generate_outcome in Ht.
      destruct (backend (generate_request files wm)) as [t'|[[|] st [p|]]];
        cbn [ok json] in Ht; try discriminate; apply app_nil_r.
    + now destruct (generateImage_invalid backend files wm w Hn) as [msg ->].
  - intros resp data Hn Hb Hok Hj.
    rewrite (console_after_valid_call backend files wm w Hn), Hb.
    destruct resp as [o st j]. cbn in Hok, Hj. now subst.
Qed.

(** ** api.ts: [verifyImage] *)



(** ** CreationScreen.tsx: batches, removal and the active image *)

Lemma firstn_app_short {A} (n : nat) (a b : list A) :
  (List.length a <= n)%nat -> firstn n (a ++ b) = a ++ firstn (n - List.length a) b.
Proof.
  intro H. rewrite firstn_app. f_equal. now apply firstn_all2.
Qed.

Lemma firstn_app_long {A} (n : nat) (a b : list A) :
  (n <= List.length a)%nat -> firstn n (a ++ b) = firstn n a.
Proof.
  intro H. rewrite firstn_app.
  replace (n - List.length a)%nat with 0%nat by lia.
  cbn [firstn]. apply app_nil_r.
Qed.

(** X6: adding two batches one after the other is adding their
    concatenation at once: the same files are taken, none twice, and the
    same slots stay free. *)
Theorem handleFiles_batches createObjectURL (a b : list File) (s : Creation.State) :
  Creation.handleFiles createObjectURL b (Creation.handleFiles createObjectURL a s)
  = Creation.handleFiles createObjectURL (a ++ b) s.
Proof.
  unfold Creation.handleFiles at 2 3.
  destruct (Z.leb_spec (5 - len (Creation.sourceImages s)) 0) as [Hfull|Hfree].
  - unfold Creation.handleFiles.
    destruct (Z.leb_spec (5 - len (Creation.sourceImages s)) 0); [reflexivity|lia].
  - rewrite !slice0_positive by exact Hfree.
    unfold Creation.handleFiles.
    cbn [Creation.sourceImages Creation.previewUrls Creation.activeIndex
         Creation.secretData Creation.isProcessing Creation.isComplete
         Creation.generatedImageUrl Creation.error].
    set (n := List.length (Creation.sourceImages s)) in *.
    set (r := Z.to_nat (5 - len (Creation.sourceImages s))).
    assert (Hr : r = (5 - n)%nat) by (unfold r, len; fold n; lia).
    assert (Hn : (n < 5)%nat) by (unfold len in Hfree; fold n in Hfree; lia).
    assert (Hlen : len (Creation.sourceImages s ++ firstn r a)
                   = Z.of_nat (n + List.length (firstn r a))).
    { unfold len. rewrite length_app. reflexivity. }
    rewrite Hlen. rewrite length_firstn.
    destruct (Nat.le_gt_cases r (List.length a)) as [Hlong|Hshort].
    + (* the first batch fills the library *)
      rewrite Nat.min_l by exact Hlong.
      destruct (Z.leb_spec (5 - Z.of_nat (n + r)) 0) as [_|Hc]; [|lia].
      now rewrite firstn_app_long.
    + rewrite Nat.min_r by lia.
      destruct (Z.leb_spec (5 - Z.of_nat (n + List.length a)) 0) as [Hc|_]; [lia|].
      rewrite slice0_positive by lia.
      rewrite (firstn_all2 (n:=r) a) by lia.
      rewrite (firstn_app_short r a b) by lia.
      replace (Z.to_nat (5 - Z.of_nat (n + List.length a)))
        with (r - List.length a)%nat by lia.
      rewrite map_app, <- !app_assoc.
      f_equal.
      unfold len. fold n.
      destruct (Z.eqb_spec (Z.of_nat n) 0) as [E|E].
      * now destruct (Z.of_nat (n + List.length a) =? 0).
      * destruct (Z.eqb_spec (Z.of_nat (n + List.length a)) 0); [lia|reflexivity].
Qed.

Lemma filter_from_above {A} (index k : Z) (l : list A) :
  index < k -> filter_from (fun i => negb (i =? index)) k l = l.
Proof.
  revert k. induction l as [|x l IH]; intros k H; cbn [filter_from]; [reflexivity|].
  destruct (Z.eqb_spec k index); [lia|]. cbn [negb]. f_equal. apply IH. lia.
Qed.

Lemma filter_from_remove {A} (index k : Z) (l : list A) :
  k <= index ->
  filter_from (fun i => negb (i =? index)) k l
  = firstn (Z.to_nat (index - k)) l ++ skipn (S (Z.to_nat (index - k))) l.
Proof.
  revert k. induction l as [|x l IH]; intros k H; cbn [filter_from].
  - now rewrite firstn_nil, skipn_nil.
  - destruct (Z.eqb_spec k index) as [->|Hne]; cbn [negb].
    + rewrite Z.sub_diag. cbn [Z.to_nat firstn skipn app].
      apply filter_from_above. lia.
    + rewrite (IH (k + 1)) by lia.
      replace (Z.to_nat (index - k)) with (S (Z.to_nat (index - (k + 1)))) by lia.
      reflexivity.
Qed.

Lemma filter_index_remove {A} (index : Z) (l : list A) :
  filter_index (fun i => negb (i =? index)) l
  = if index <? 0 then l
    else firstn (Z.to_nat index) l ++ skipn (S (Z.to_nat index)) l.
Proof.
  unfold filter_index. destruct (Z.ltb_spec index 0) as [H|H].
  - now apply filter_from_above.
  - rewrite filter_from_remove by exact H. now rewrite Z.sub_0_r.
Qed.

(** X7: [removeImage] takes out of both lists the entry at the given
    position and nothing else; a position that is negative or past the end
    leaves both lists as they are. *)
Theorem removeImage_removes_one (index : Z) (s : Creation.State) :
  (0 <= index ->
   Creation.sourceImages (Creation.removeImage index s)
   = firstn (Z.to_nat index) (Creation.sourceImages s)
     ++ skipn (S (Z.to_nat index)) (Creation.sourceImages s) /\
   Creation.previewUrls (Creation.removeImage index s)
   = firstn (Z.to_nat index) (Creation.previewUrls s)
     ++ skipn (S (Z.to_nat index)) (Creation.previewUrls s)) /\
  (index < 0 \/
   (len (Creation.sourceImages s) <= index /\ len (Creation.previewUrls s) <= index) ->
   Creation.sourceImages (Creation.removeImage index s) = Creation.sourceImages s /\
   Creation.previewUrls (Creation.removeImage index s) = Creation.previewUrls s).
Proof.
  unfold Creation.removeImage.
  cbn [Creation.sourceImages Creation.previewUrls].
  rewrite !filter_index_remove. split.
  - intro H. destruct (Z.ltb_spec index 0); [lia|]. now split.
  - intros [H|[H1 H2]].
    + destruct (Z.ltb_spec index 0); [now split|lia].
    + destruct (Z.ltb_spec index 0); [now split|].
      unfold len in *.
      rewrite !firstn_all2, !skipn_all2, !app_nil_r by lia. now split.
Qed.

Lemma nth_error_remove {A} (l : list A) (j i : nat) :
  nth_error (firstn j l ++ skipn (S j) l) i
  = if (i <? j)%nat then nth_error l i else nth_error l (S i).
Proof.
  revert j i. induction l as [|x l IH]; intros j i.
  - rewrite firstn_nil, skipn_nil. cbn [app].
    destruct (i <? j)%nat; now destruct i.
  - destruct j as [|j]; [reflexivity|].
    destruct i as [|i]; [reflexivity|].
    cbn [firstn skipn app nth_error]. rewrite IH.
    now change (S i <? S j)%nat with (i <? j)%nat.
Qed.

Lemma at_index_remove {A} (l : list A) (j i : Z) :
  0 <= j -> 0 <= i ->
  at_index (firstn (Z.to_nat j) l ++ skipn (S (Z.to_nat j)) l) i
  = if i <? j then at_index l i else at_index l (i + 1).
Proof.
  intros Hj Hi. unfold at_index.
  destruct (Z.ltb_spec i 0); [lia|].
  destruct (Z.ltb_spec (i + 1) 0); [lia|].
  rewrite nth_error_remove.
  replace (Z.to_nat (i + 1)) with (S (Z.to_nat i)) by lia.
  destruct (Z.ltb_spec i j), (Nat.ltb_spec (Z.to_nat i) (Z.to_nat j));
    try reflexivity; lia.
Qed.

Lemma length_remove {A} (l : list A) (j : nat) :
  (j < List.length l)%nat ->
  List.length (firstn j l ++ skipn (S j) l) = (List.length l - 1)%nat.
Proof.
  intro H. rewrite length_app, length_firstn, length_skipn. lia.
Qed.

(** X8: which file is active after a thumbnail is removed.  Removing a
    later thumbnail keeps the active file.  Removing the active one or an
    earlier one, when the active file is not the last, makes the next file
    active, because the index stays.  When the active file is the last,
    removing an earlier one keeps it, and removing it makes the one before
    it active. *)
Theorem removeImage_active_file (j : Z) (s : Creation.State) :
  Creation.library_ok s ->
  0 <= j < len (Creation.sourceImages s) ->
  let i := Creation.activeIndex s in
  let after := Creation.removeImage j s in
  let file_at := at_index (Creation.sourceImages s) in
  let now_active :=
    at_index (Creation.sourceImages after) (Creation.activeIndex after) in
  (i < j -> now_active = file_at i) /\
  (j <= i -> i < len (Creation.sourceImages s) - 1 -> now_active = file_at (i + 1)) /\
  (j < i -> i = len (Creation.sourceImages s) - 1 -> now_active = file_at i) /\
  (j = i -> i = len (Creation.sourceImages s) - 1 -> 0 < i ->
   now_active = file_at (i - 1)).
Proof.
  intros (Hcap & Hlen & Hidx) Hj i after file_at now_active.
  subst now_active after file_at. unfold Creation.removeImage.
  cbn [Creation.sourceImages Creation.activeIndex].
  rewrite filter_index_remove.
  destruct (Z.ltb_spec j 0); [lia|].
  unfold len in *.
  rewrite length_remove by lia.
  fold i in Hidx |- *.
  set (n := List.length (Creation.sourceImages s)) in *.
  assert (Hn : (0 < n)%nat) by lia.
  repeat split.
  - intro H1. destruct (Z.leb_spec (Z.of_nat (n - 1)) i); [lia|].
    rewrite at_index_remove by lia.
    destruct (Z.ltb_spec i j); [reflexivity|lia].
  - intros H1 H2. destruct (Z.leb_spec (Z.of_nat (n - 1)) i); [lia|].
    rewrite at_index_remove by lia.
    destruct (Z.ltb_spec i j); [lia|reflexivity].
  - intros H1 H2. destruct (Z.leb_spec (Z.of_nat (n - 1)) i); [|lia].
    rewrite at_index_remove by lia.
    destruct (Z.ltb_spec (Z.max 0 (Z.of_nat (n - 1) - 1)) j); [lia|].
    f_equal. lia.
  - intros H1 H2 H3. destruct (Z.leb_spec (Z.of_nat (n - 1)) i); [|lia].
    rewrite at_index_remove by lia.
    destruct (Z.ltb_spec (Z.max 0 (Z.of_nat (n - 1) - 1)) j); [|lia].
    f_equal. lia.
Qed.

Lemma removeImage_active_file_witness :
  at_index (Creation.sourceImages (Creation.removeImage 0 four_loaded))
           (Creation.activeIndex (Creation.removeImage 0 four_loaded))
  = Some landscape.
Proof.
  assert (H0 : Creation.library_ok four_loaded).
  { unfold Creation.library_ok, len. vm_compute.
    repeat split; try reflexivity; discriminate. }
  assert (Hj : 0 <= 0 < len (Creation.sourceImages four_loaded))
    by (vm_compute; split; [discriminate|reflexivity]).
  refine (eq_trans
            (proj1 (proj2 (removeImage_active_file 0 four_loaded H0 Hj)) _ _)
            eq_refl).
  - vm_compute. discriminate.
  - vm_compute. reflexivity.
Defined.

Lemma remove_last {A} (l : list A) (x : A) :
  firstn (List.length l) (l ++ [x]) ++ skipn (S (List.length l)) (l ++ [x]) = l.
Proof.
  rewrite firstn_app_long by lia. rewrite firstn_all.
  rewrite skipn_all2; [apply app_nil_r|].
  rewrite length_app. cbn [List.length]. lia.
Qed.

(** X9: with a free slot, adding one file and removing the thumbnail
    just added gives back the files, the previews and the active index;
    only [isComplete] is left false. *)
Theorem add_then_remove_restores createObjectURL (f : File) (s : Creation.State) :
  Creation.library_ok s ->
  len (Creation.sourceImages s) < 5 ->
  Creation.removeImage (len (Creation.sourceImages s))
    (Creation.handleFiles createObjectURL [f] s)
  = {| Creation.sourceImages := Creation.sourceImages s;
       Creation.previewUrls := Creation.previewUrls s;
       Creation.activeIndex := Creation.activeIndex s;
       Creation.secretData := Creation.secretData s;
       Creation.isProcessing := Creation.isProcessing s;
       Creation.isComplete := false;
       Creation.generatedImageUrl := Creation.generatedImageUrl s;
       Creation.error := Creation.error s |}.
Proof.
  intros (Hcap & Hlen & Hidx) Hfree.
  unfold Creation.handleFiles.
  destruct (Z.leb_spec (5 - len (Creation.sourceImages s)) 0); [lia|].
  rewrite slice0_positive by lia.
  replace (Z.to_nat (5 - len (Creation.sourceImages s)))
    with (S (Z.to_nat (4 - len (Creation.sourceImages s)))) by lia.
  cbn [firstn map]. rewrite !firstn_nil. cbn [map].
  unfold Creation.removeImage.
  cbn [Creation.sourceImages Creation.previewUrls Creation.activeIndex
       Creation.secretData Creation.isProcessing Creation.isComplete
       Creation.generatedImageUrl Creation.error].
  rewrite !filter_index_remove.
  unfold len in *.
  destruct (Z.ltb_spec (Z.of_nat (List.length (Creation.sourceImages s))) 0); [lia|].
  rewrite Nat2Z.id.
  rewrite (remove_last (Creation.sourceImages s)).
  rewrite <- Hlen at 1 2.
  rewrite (remove_last (Creation.previewUrls s)).
  f_equal.
  destruct (Z.eqb_spec (Z.of_nat (List.length (Creation.sourceImages s))) 0) as [E|E].
  - rewrite E in *.
    destruct (Z.leb_spec 0 0); [|lia]. lia.
  - destruct (Z.leb_spec (Z.of_nat (List.length (Creation.sourceImages s)))
                (Creation.activeIndex s)); [lia|reflexivity].
Qed.

Lemma add_then_remove_restores_witness :
  Creation.sourceImages
    (Creation.removeImage 4 (Creation.handleFiles blob_url [landscape] four_loaded))
  = [portrait; landscape; portrait; landscape].
Proof.
  assert (H0 : Creation.library_ok four_loaded).
  { unfold Creation.library_ok, len. vm_compute.
    repeat split; try reflexivity; discriminate. }
  assert (Hfree : len (Creation.sourceImages four_loaded) < 5) by reflexivity.
  exact (f_equal Creation.sourceImages
           (add_then_remove_restores blob_url landscape four_loaded H0 Hfree)).
Defined.

(** ** CreationScreen.tsx: the page as a whole *)

Lemma filter_from_map {A B} (f : A -> B) (keep : Z -> bool) (l : list A) (i : Z) :
  filter_from keep i (map f l) = map f (filter_from keep i l).
Proof.
  revert i. induction l as [|x l IH]; intro i; cbn [map filter_from]; [reflexivity|].
  destruct (keep i); cbn [map]; now rewrite IH.
Qed.

Lemma generateImage_resolved_nonempty
    backend (files : list File) (wm : option jstr) (w : Api.World) (url : jstr) :
  snd (Api.generateImage backend files wm w) = inr url -> url <> [].
Proof.
  assert (D : (1 <= List.length files <= 5)%nat \/ ~ (1 <= List.length files <= 5)%nat)
    by lia.
  destruct D as [Hn|Hn].
  - rewrite (generateImage_outcome backend files wm w Hn). intro H.
    apply generate_outcome_resolved in H.
    destruct H as (resp & data & _ & _ & _ & ->). discriminate.
  - destruct (generateImage_invalid backend files wm w Hn) as [msg ->].
    discriminate.
Qed.

Lemma studio_start_inv createObjectURL : studio_inv createObjectURL Studio.start.
Proof.
  unfold studio_inv. cbn. split; [apply initial_library_ok|].
  split; [reflexivity|]. split; [reflexivity|discriminate].
Qed.

Lemma studio_fire_inv createObjectURL backend (e : Studio.Event) (p : Studio.Page) :
  studio_inv createObjectURL p -> Studio.enabled e p = true ->
  studio_inv createObjectURL (Studio.fire createObjectURL backend e p).
Proof.
  destruct p as [s w pd]. unfold studio_inv.
  cbn [Studio.st Studio.pending Studio.net].
  intros (Hlib & Hal & Hpd) Hen.
  destruct e as [files|idx|idx|text| | |];
    cbn [Studio.fire Studio.on_state Studio.st Studio.pending Studio.net].
  - (* files added *)
    split; [now apply handleFiles_library_ok|].
    unfold Creation.handleFiles.
    destruct (5 - len (Creation.sourceImages s) <=? 0); [now split|].
    cbn [Creation.sourceImages Creation.previewUrls Creation.isProcessing
         Creation.isComplete Creation.error Creation.generatedImageUrl].
    split; [now rewrite map_app, Hal|].
    destruct pd as [r|].
    + destruct Hpd as (H1 & H2 & H3 & H4). now repeat split.
    + destruct Hpd as (H1 & H2). split; [exact H1|discriminate].
  - (* a thumbnail selected *)
    cbn in Hen. unfold Studio.thumb_exists in Hen.
    apply andb_true_iff in Hen. destruct Hen as [H0 H1].
    apply Z.leb_le in H0. apply Z.ltb_lt in H1.
    split; [|split; [exact Hal|exact Hpd]].
    destruct Hlib as (Hc & Hl & Hi). unfold Creation.library_ok.
    cbn [Studio.setActiveIndex Creation.sourceImages Creation.previewUrls
         Creation.activeIndex].
    repeat split; try assumption; lia.
  - (* a thumbnail removed *)
    split; [now apply removeImage_library_ok|].
    unfold Creation.removeImage.
    cbn [Creation.sourceImages Creation.previewUrls Creation.isProcessing
         Creation.isComplete Creation.error Creation.generatedImageUrl].
    split; [unfold filter_index; now rewrite Hal, filter_from_map|exact Hpd].
  - (* the secret typed *)
    split; [exact Hlib|]. split; [exact Hal|exact Hpd].
  - (* RENDER PORTRAIT *)
    cbn in Hen. apply andb_true_iff in Hen. destruct Hen as [Hc Hn].
    apply negb_true_iff in Hc. apply negb_true_iff in Hn.
    apply orb_false_iff in Hn. destruct Hn as [Hn Hp].
    rewrite Hn.
    destruct (Api.generateImage backend (Creation.sourceImages s)
                (Some (Creation.secretData s)) w) as [w' r] eqn:E.
    cbn [Studio.st Studio.pending Creation.embed_begin Creation.sourceImages
         Creation.previewUrls Creation.isProcessing Creation.isComplete
         Creation.error].
    split; [exact Hlib|]. split; [exact Hal|].
    repeat split. intros url ->.
    apply (generateImage_resolved_nonempty backend (Creation.sourceImages s)
             (Some (Creation.secretData s)) w). now rewrite E.
  - (* the call settles *)
    destruct pd as [r|]; [|discriminate Hen].
    destruct Hpd as (H1 & H2 & H3 & H4).
    cbn [Studio.st Studio.pending].
    destruct r as [t|url];
      cbn [Creation.embed_settle Creation.sourceImages Creation.previewUrls
           Creation.isProcessing Creation.isComplete Creation.error
           Creation.generatedImageUrl];
      (split; [exact Hlib|]); (split; [exact Hal|]); (split; [reflexivity|]).
    + rewrite H2. discriminate.
    + intros _. split; [exact H3|]. exists url. split; [reflexivity|now apply H4].
  - (* the result dismissed *)
    cbn in Hen.
    split; [exact Hlib|]. split; [exact Hal|].
    destruct pd as [r|].
    + destruct Hpd as (_ & H2 & _). congruence.
    + cbn. split; [reflexivity|discriminate].
Qed.

Lemma reachable_studio_inv createObjectURL backend (p : Studio.Page) :
  Studio.reachable createObjectURL backend p -> studio_inv createObjectURL p.
Proof.
  induction 1 as [|e p _ IH Hen]; [apply studio_start_inv|].
  now apply studio_fire_inv.
Qed.

Lemma page_loaded_reachable backend :
  Studio.reachable blob_url backend (page_loaded backend).
Proof.
  apply (Studio.reach_fire blob_url backend (Studio.AddFiles [portrait]));
    [apply Studio.reach_start|reflexivity].
Defined.

Lemma page_rendering_reachable backend :
  Studio.reachable blob_url backend (page_rendering backend).
Proof.
  apply (Studio.reach_fire blob_url backend Studio.ClickRender);
    [apply page_loaded_reachable|reflexivity].
Defined.

Lemma page_settled_reachable backend :
  Studio.reachable blob_url backend (page_settled backend).
Proof.
  apply (Studio.reach_fire blob_url backend Studio.Settle);
    [apply page_rendering_reachable|].
  unfold page_rendering, page_loaded.
  cbn [Studio.fire Studio.on_state Studio.st Studio.net Studio.start
       Studio.enabled].
  change (len (Creation.sourceImages
                 (Creation.handleFiles blob_url [portrait] Creation.initial)) =? 0)
    with false. cbv iota.
  now destruct (Api.generateImage backend _ _ _).
Defined.



(** X11: the error banner is never displayed.  It is rendered only in
    the branch of a completed generation, and on every reachable page a
    completed generation has no error: a failure records its message with
    [isComplete] false, and a success starts from a cleared error. *)
Theorem error_banner_never_shown createObjectURL backend (p : Studio.Page) :
  Studio.reachable createObjectURL backend p ->
  Studio.shown_error (Studio.st p) = None.
Proof.
  intro Hp.
  destruct (reachable_studio_inv createObjectURL backend p Hp) as (_ & _ & Hpd).
  unfold Studio.shown_error.
  destruct (Creation.isComplete (Studio.st p)) eqn:Hc; [|reflexivity].
  destruct (Studio.pending p) as [r|].
  - destruct Hpd as (_ & H & _). congruence.
  - destruct Hpd as (_ & H). destruct (H eq_refl) as [-> _]. reflexivity.
Qed.

Lemma error_banner_never_shown_witness :
  Creation.error
    (Studio.st (page_settled (backend_refusing (lit "Bad Gateway") None)))
  = Some (lit "Bad Gateway") /\
  Studio.shown_error
    (Studio.st (page_settled (backend_refusing (lit "Bad Gateway") None)))
  = None.
Proof.
  split; [reflexivity|].
  exact (error_banner_never_shown blob_url
           (backend_refusing (lit "Bad Gateway") None) _
           (page_settled_reachable _)).
Defined.

(** X12: wherever RENDER PORTRAIT can be clicked, the library holds one
    to five files, so the click posts exactly one request, with the files
    and the secret of that moment, and the call settles as the backend's
    answer decides: the two checks at the head of [generateImage] never
    fire from the screen. *)
Theorem render_click_posts_once createObjectURL backend (p : Studio.Page) :
  Studio.reachable createObjectURL backend p ->
  Studio.enabled Studio.ClickRender p = true ->
  let s := Studio.st p in
  let req := generate_request (Creation.sourceImages s)
                              (Some (Creation.secretData s)) in
  let p' := Studio.fire createObjectURL backend Studio.ClickRender p in
  (1 <= List.length (Creation.sourceImages s) <= 5)%nat /\
  Api.requests (Studio.net p') = Api.requests (Studio.net p) ++ [req] /\
  Studio.pending p' = Some (generate_outcome (backend req)) /\
  Creation.isProcessing (Studio.st p') = true.
Proof.
  intros Hp Hen s req p'.
  destruct (reachable_studio_inv createObjectURL backend p Hp) as ((Hc & _) & _).
  fold s in Hc. unfold len in Hc.
  cbn in Hen. apply andb_true_iff in Hen. destruct Hen as [_ Hn].
  apply negb_true_iff in Hn. apply orb_false_iff in Hn. destruct Hn as [Hn _].
  fold s in Hn.
  assert (Hv : (1 <= List.length (Creation.sourceImages s) <= 5)%nat)
    by (apply Z.eqb_neq in Hn; unfold len in Hn; lia).
  split; [exact Hv|].
  pose proof (generateImage_posts backend (Creation.sourceImages s)
                (Some (Creation.secretData s)) (Studio.net p) Hv) as Hreq.
  pose proof (generateImage_outcome backend (Creation.sourceImages s)
                (Some (Creation.secretData s)) (Studio.net p) Hv) as Hout.
  subst p'. cbn [Studio.fire]. fold s. rewrite Hn.
  destruct (Api.generateImage backend (Creation.sourceImages s)
              (Some (Creation.secretData s)) (Studio.net p)) as [w' r].
  cbn [fst snd] in Hreq, Hout. subst r.
  cbn [Studio.net Studio.pending Studio.st Creation.embed_begin
       Creation.isProcessing].
  now repeat split.
Qed.

Lemma render_click_posts_once_witness :
  Api.requests (Studio.net (page_rendering backend_down))
  = [generate_request [portrait] (Some [])].
Proof.
  exact (proj1 (proj2 (render_click_posts_once blob_url backend_down
                         (page_loaded backend_down)
                         (page_loaded_reachable _) eq_refl))).
Defined.

(** X13: one generation at a time.  On every reachable page a call is
    pending exactly while [isProcessing] holds, and then neither RENDER
    PORTRAIT nor the dismiss button can be clicked. *)
Theorem one_generation_at_a_time createObjectURL backend (p : Studio.Page) :
  Studio.reachable createObjectURL backend p ->
  (Studio.pending p <> None <-> Creation.isProcessing (Studio.st p) = true) /\
  (Studio.pending p <> None ->
   Studio.enabled Studio.ClickRender p = false /\
   Studio.enabled Studio.ClickRetry p = false).
Proof.
  intro Hp.
  destruct (reachable_studio_inv createObjectURL backend p Hp) as (_ & _ & Hpd).
  destruct (Studio.pending p) as [r|].
  - destruct Hpd as (H1 & H2 & _). split.
    + split; [intros _; exact H1|discriminate].
    + intros _. cbn. rewrite H1, H2. cbn. split; [now rewrite orb_true_r|reflexivity].
  - destruct Hpd as (H1 & _). split.
    + split; [congruence|]. rewrite H1. discriminate.
    + congruence.
Qed.

Lemma one_generation_at_a_time_witness :
  Studio.enabled Studio.ClickRender (page_rendering backend_down) = false.
Proof.
  apply (proj2 (one_generation_at_a_time blob_url backend_down
                  (page_rendering backend_down) (page_rendering_reachable _))).
  vm_compute. discriminate.
Defined.

(** X14: whenever the DOWNLOAD ASSET button is on the page (a completed
    generation), [handleDownload] downloads the generated image, never a
    preview and never nothing, under a name ending in [.png]; and unless
    the library was emptied meanwhile that is the image in the viewport. *)
Theorem download_is_generated_image
    createObjectURL backend (p : Studio.Page) (now : jstr) :
  Studio.reachable createObjectURL backend p ->
  Creation.isComplete (Studio.st p) = true ->
  exists u,
    Creation.generatedImageUrl (Studio.st p) = Some u /\
    Studio.handleDownload now (Studio.st p)
    = Some {| Studio.href := u;
              Studio.download := lit "nexus_portrait_" ++ now ++ lit ".png" |} /\
    (Creation.previewUrls (Studio.st p) <> [] ->
     Creation.displayed_src (Studio.st p) = Some u).
Proof.
  intros Hp Hc.
  destruct (reachable_studio_inv createObjectURL backend p Hp) as (_ & _ & Hpd).
  destruct (Studio.pending p) as [r|].
  - destruct Hpd as (_ & H & _). congruence.
  - destruct Hpd as (_ & H). destruct (H Hc) as (_ & u & Hu & Hne).
    exists u. split; [exact Hu|].
    assert (Ht : truthy_str u = true) by now apply truthy_str_nonempty.
    unfold Studio.handleDownload, Creation.displayed_src.
    rewrite Hu, Hc, Ht. cbn [andb]. rewrite Ht. split; [reflexivity|].
    intro Hpv. now destruct (Creation.previewUrls (Studio.st p)).
Qed.

Lemma download_is_generated_image_witness :
  Studio.handleDownload (lit "1733513000000")
    (Studio.st (page_settled (backend_returning (lit "QUJD"))))
  = Some {| Studio.href := lit "data:image/png;base64,QUJD";
            Studio.download := lit "nexus_portrait_1733513000000.png" |}.
Proof.
  destruct (download_is_generated_image blob_url (backend_returning (lit "QUJD"))
              (page_settled (backend_returning (lit "QUJD")))
              (lit "1733513000000") (page_settled_reachable _) eq_refl)
    as (u & Hu & Hd & _).
  rewrite Hd. injection Hu as <-. reflexivity.
Defined.

(** ** DetectionScreen.tsx: the page as a whole *)

Lemma set_states_ui (cb : list Detection.Setter) (w : Detection.World) :
  Detection.ui (fold_left (fun acc a => Detection.set_state a acc) cb w)
  = apply_all cb (Detection.ui w) /\
  Detection.timers (fold_left (fun acc a => Detection.set_state a acc) cb w)
  = Detection.timers w.
Proof.
  revert w. induction cb as [|a cb IH]; intro w; [now split|].
  cbn [fold_left]. destruct (IH (Detection.set_state a w)) as [-> ->].
  now split.
Qed.

Lemma fire_effect (w w' : Detection.World) :
  Detection.fire w = Some w' ->
  exists tm rest,
    Detection.timers w = tm :: rest /\ Detection.timers w' = rest /\
    Detection.ui w' = apply_all (Detection.callback_of tm) (Detection.ui w).
Proof.
  unfold Detection.fire. destruct (Detection.timers w) as [|tm rest]; [discriminate|].
  intros [= <-]. exists tm, rest. split; [reflexivity|].
  match goal with |- context [fold_left _ _ ?w0] =>
    destruct (set_states_ui (Detection.callback_of tm) w0) as [-> ->] end.
  now split.
Qed.

Lemma dispatch_processFile createObjectURL (file : File) (t : Z) (w : Detection.World) :
  Detection.ui (Detection.dispatch (Detection.processFile createObjectURL file) t w)
  = {| Detection.image := Some file;
       Detection.previewUrl := Some (createObjectURL file);
       Detection.isScanning := Detection.isScanning (Detection.ui w);
       Detection.scanComplete := false;
       Detection.metadata := None;
       Detection.verificationStep := 0 |} /\
  Detection.timers (Detection.dispatch (Detection.processFile createObjectURL file) t w)
  = Detection.timers w.
Proof. destruct w as [[img pu sc cp md vs] c tm rq h]. now split. Qed.

Lemma dispatch_reset (t : Z) (w : Detection.World) :
  Detection.ui (Detection.dispatch Detection.reset t w)
  = {| Detection.image := None; Detection.previewUrl := None;
       Detection.isScanning := Detection.isScanning (Detection.ui w);
       Detection.scanComplete := false; Detection.metadata := None;
       Detection.verificationStep := 0 |} /\
  Detection.timers (Detection.dispatch Detection.reset t w) = Detection.timers w.
Proof. destruct w as [[img pu sc cp md vs] c tm rq h]. now split. Qed.

Lemma dispatch_handleScan (t : Z) (w : Detection.World) :
  Detection.image (Detection.ui w) <> None -> Detection.timers w = [] ->
  Detection.ui (Detection.dispatch Detection.handleScan t w)
  = {| Detection.image := Detection.image (Detection.ui w);
       Detection.previewUrl := Detection.previewUrl (Detection.ui w);
       Detection.isScanning := true;
       Detection.scanComplete := Detection.scanComplete (Detection.ui w);
       Detection.metadata := Detection.metadata (Detection.ui w);
       Detection.verificationStep := 1 |} /\
  map Detection.callback_of
      (Detection.timers (Detection.dispatch Detection.handleScan t w))
  = [Detection.analyze_cb; Detection.extract_cb; Detection.finish_cb].
Proof.
  destruct w as [[img pu sc cp md vs] c tm rq h].
  cbn [Detection.ui Detection.timers Detection.image]. intros Himg ->.
  destruct img as [f|]; [|congruence].
  unfold Detection.dispatch, Detection.advance, Detection.handleScan.
  cbn [Detection.ui Detection.clock Detection.timers Detection.requests
       Detection.history Detection.image fold_left Detection.exec
       Detection.set_state Detection.apply_setter Detection.isScanning
       Detection.scanComplete Detection.verificationStep Detection.previewUrl
       Detection.metadata].
  rewrite schedule_scan. now split.
Qed.

Ltac facts_cases H :=
  destruct H as [(Hs & Hcb & [(Hc & Hm & Hv)|(Hc & Hm & Hi & Hv)])
                |(Hs & Hc & Hm & Hi &
                  [(Hcb & Hv)|[(Hcb & Hv)|(Hcb & Hv)]])].

Lemma step_scan_facts createObjectURL (w w' : Detection.World) :
  scan_facts createObjectURL w -> Detection.step createObjectURL w w' ->
  scan_facts createObjectURL w'.
Proof.
  intros [Hpu Hf] Hstep. unfold scan_facts. cbv zeta in *.
  destruct Hstep as [e t w Hen Ht|w w' Hfire].
  - destruct e as [[|file files]|file| |]; cbn [Detection.handler Detection.handleDrop].
    + (* a drop without a file *)
      destruct w as [s c tm rq h]. now split.
    + change (Detection.handleDrop createObjectURL (file :: files))
        with (Detection.processFile createObjectURL file).
      destruct (dispatch_processFile createObjectURL file t w) as [-> ->].
      cbn. split; [reflexivity|].
      facts_cases Hf; rewrite Hs, Hcb;
        [left|left|right|right|right]; intuition (auto; discriminate).
    + destruct (dispatch_processFile createObjectURL file t w) as [-> ->].
      cbn. split; [reflexivity|].
      facts_cases Hf; rewrite Hs, Hcb;
        [left|left|right|right|right]; intuition (auto; discriminate).
    + (* INITIATE SCAN *)
      cbn in Hen. apply andb_true_iff in Hen. destruct Hen as [Hnc Hen].
      apply negb_true_iff in Hnc. apply negb_true_iff in Hen.
      apply orb_false_iff in Hen. destruct Hen as [Himg Hns].
      assert (Hld : Detection.image (Detection.ui w) <> None)
        by (destruct (Detection.image (Detection.ui w)); [discriminate|discriminate Himg]).
      facts_cases Hf; try congruence.
      apply map_eq_nil in Hcb.
      destruct (dispatch_handleScan t w Hld Hcb) as [-> ->].
      cbn. split; [exact Hpu|]. right. rewrite Hc, Hm. intuition auto.
    + (* ANALYZE ANOTHER ASSET *)
      cbn in Hen.
      destruct (dispatch_reset t w) as [-> ->].
      cbn. split; [reflexivity|].
      facts_cases Hf; try congruence.
      rewrite Hs, Hcb. left. intuition auto.
  - (* a timer fires *)
    destruct (fire_effect w w' Hfire) as (tm & rest & Htm & -> & ->).
    rewrite Htm in Hf. cbn [map] in Hf.
    destruct (Detection.ui w) as [img pu sc cp md vs].
    cbn [Detection.image Detection.previewUrl Detection.isScanning
         Detection.scanComplete Detection.metadata Detection.verificationStep] in *.
    facts_cases Hf; try discriminate;
      injection Hcb as -> Hcb; rewrite Hcb; subst; cbn;
      (split; [reflexivity|]).
    + right. intuition auto.
    + right. intuition auto.
    + left. intuition auto.
Qed.

Lemma reachable_scan_facts createObjectURL (w : Detection.World) :
  Detection.reachable createObjectURL w -> scan_facts createObjectURL w.
Proof.
  induction 1 as [|w w' _ IH Hstep].
  - unfold scan_facts. cbn. split; [reflexivity|]. left. intuition auto.
  - now apply (step_scan_facts createObjectURL w w').
Qed.

Lemma apply_all_app (a b : list Detection.Setter) (s : Detection.State) :
  apply_all (a ++ b) s = apply_all b (apply_all a s).
Proof. unfold apply_all. apply fold_left_app. Qed.

Lemma run_timers_effect (n : nat) (w : Detection.World) :
  List.length (Detection.timers w) = n ->
  Detection.ui (Detection.run_timers n w)
  = apply_all (List.concat (map Detection.callback_of (Detection.timers w)))
              (Detection.ui w) /\
  Detection.timers (Detection.run_timers n w) = [].
Proof.
  revert w. induction n as [|n IH]; intros w Hn.
  - apply length_zero_iff_nil in Hn. rewrite Hn. now split.
  - cbn [Detection.run_timers].
    destruct (Detection.fire w) as [w'|] eqn:E.
    + destruct (fire_effect w w' E) as (tm & rest & Htm & Hrest & Hui).
      rewrite Htm in Hn |- *. cbn [List.length] in Hn.
      destruct (IH w') as [-> ->]; [rewrite Hrest; lia|].
      rewrite Hrest, Hui. cbn [map List.concat]. now rewrite apply_all_app.
    + unfold Detection.fire in E.
      destruct (Detection.timers w); [discriminate Hn|discriminate E].
Qed.

(** A scan under way runs to its end whatever state it is in. *)
Lemma scanning_settles createObjectURL (w : Detection.World) :
  scan_facts createObjectURL w ->
  Detection.isScanning (Detection.ui w) = true ->
  Detection.timers (Detection.settle w) = [] /\
  Detection.isScanning (Detection.ui (Detection.settle w)) = false /\
  Detection.scanComplete (Detection.ui (Detection.settle w)) = true /\
  Detection.metadata (Detection.ui (Detection.settle w))
  = Some Detection.FAKE_METADATA /\
  Detection.image (Detection.ui (Detection.settle w))
  = Detection.image (Detection.ui w).
Proof.
  intros [_ Hf] Hscan. cbv zeta in Hf. unfold Detection.settle.
  destruct (run_timers_effect (List.length (Detection.timers w)) w eq_refl)
    as [-> ->].
  split; [reflexivity|].
  facts_cases Hf; try congruence; rewrite Hcb;
    destruct (Detection.ui w); now repeat split.
Qed.

Lemma scan_under_way_reachable : Detection.reachable blob_url scan_under_way.
Proof.
  apply (Detection.reach_step blob_url
           (Detection.dispatch Detection.handleScan 100 asset_dropped)).
  - apply (Detection.reach_step blob_url asset_dropped);
      [apply asset_dropped_reachable|].
    apply (Detection.step_user blob_url Detection.ClickScan 100 asset_dropped);
      [reflexivity|vm_compute; discriminate].
  - apply Detection.step_timer. reflexivity.
Defined.

Lemma scan_finished_reachable : Detection.reachable blob_url scan_finished.
Proof.
  apply scan_reachable;
    [apply asset_dropped_reachable|reflexivity|vm_compute; discriminate].
Defined.

(** X15: the step list only ever shows one of five pictures: nothing
    (the waiting text), three waiting steps, or step 1, 2 or 3 active with
    the steps before it checked.  The step shown stays within 0..3, so the
    third step never gets its check mark, not even after the scan. *)
Theorem step_list_pictures createObjectURL (w : Detection.World) :
  Detection.reachable createObjectURL w ->
  0 <= Detection.verificationStep (Detection.ui w) <= 3 /\
  StepList.check_mark
    (StepList.StepItem 3 (Detection.verificationStep (Detection.ui w))) = false /\
  In (StepList.panel (Detection.ui w))
     [ None;
       Some [StepList.waiting; StepList.waiting; StepList.waiting];
       Some [StepList.active; StepList.waiting; StepList.waiting];
       Some [StepList.done; StepList.active; StepList.waiting];
       Some [StepList.done; StepList.done; StepList.active] ].
Proof.
  intro Hw. destruct (reachable_scan_facts createObjectURL w Hw) as [_ Hf].
  cbv zeta in Hf. unfold StepList.panel.
  facts_cases Hf; rewrite Hs, Hc; cbn [orb];
    try (destruct Hv as [Hv|Hv]); rewrite Hv;
    (split; [lia|]); (split; [reflexivity|]); cbn; tauto.
Qed.

Lemma step_list_pictures_witness :
  StepList.panel (Detection.ui scan_under_way)
  = Some [StepList.done; StepList.active; StepList.waiting].
Proof.
  destruct (proj2 (proj2 (step_list_pictures blob_url scan_under_way
                            scan_under_way_reachable)))
    as [H|[H|[H|[H|[H|[]]]]]];
    try (vm_compute in H; discriminate H).
  symmetry. exact H.
Defined.



(** X17: a scan cannot be cancelled.  From any reachable page with a
    scan under way, letting the timers run ends with isScanning false,
    scanComplete true and the fixed metadata, for the file loaded at that
    moment, and with no timer left. *)
Theorem scan_always_completes createObjectURL (w : Detection.World) :
  Detection.reachable createObjectURL w ->
  Detection.isScanning (Detection.ui w) = true ->
  let w' := Detection.settle w in
  Detection.timers w' = [] /\
  Detection.isScanning (Detection.ui w') = false /\
  Detection.scanComplete (Detection.ui w') = true /\
  Detection.metadata (Detection.ui w') = Some Detection.FAKE_METADATA /\
  Detection.image (Detection.ui w') = Detection.image (Detection.ui w) /\
  Detection.reachable createObjectURL w'.
Proof.
  intros Hw Hscan w'.
  destruct (scanning_settles createObjectURL w
              (reachable_scan_facts createObjectURL w Hw) Hscan)
    as (H1 & H2 & H3 & H4 & H5).
  repeat split; try assumption.
  now apply run_timers_reachable.
Qed.

Lemma scan_always_completes_witness :
  Detection.scanComplete (Detection.ui (Detection.settle scan_under_way)) = true.
Proof.
  exact (proj1 (proj2 (proj2 (scan_always_completes blob_url scan_under_way
                                scan_under_way_reachable eq_refl)))).
Defined.

(** X18: a file dropped on the upload area while a scan runs takes the
    place of the scanned file and gets its verdict: when the timers have
    run, the page shows the dropped file with scanComplete true and the
    fixed metadata, though no scan was started on it. *)
Theorem verdict_lands_on_dropped_file
    createObjectURL (w : Detection.World) (t : Z) (f : File) (others : list File) :
  Detection.reachable createObjectURL w ->
  Detection.isScanning (Detection.ui w) = true ->
  Detection.clock w <= t ->
  let w' := Detection.settle
              (Detection.dispatch
                 (Detection.handler createObjectURL
                    (Detection.DropFiles (f :: others))) t w) in
  Detection.image (Detection.ui w') = Some f /\
  Detection.previewUrl (Detection.ui w') = Some (createObjectURL f) /\
  Detection.scanComplete (Detection.ui w') = true /\
  Detection.metadata (Detection.ui w') = Some Detection.FAKE_METADATA.
Proof.
  intros Hw Hscan Ht w'.
  set (w1 := Detection.dispatch
               (Detection.handler createObjectURL
                  (Detection.DropFiles (f :: others))) t w) in *.
  assert (Hw1 : Detection.reachable createObjectURL w1).
  { apply (Detection.reach_step createObjectURL w w1 Hw).
    exact (Detection.step_user createObjectURL
             (Detection.DropFiles (f :: others)) t w eq_refl Ht). }
  assert (Hui : Detection.ui w1
                = {| Detection.image := Some f;
                     Detection.previewUrl := Some (createObjectURL f);
                     Detection.isScanning := Detection.isScanning (Detection.ui w);
                     Detection.scanComplete := false;
                     Detection.metadata := None;
                     Detection.verificationStep := 0 |})
    by apply (dispatch_processFile createObjectURL f t w).
  assert (Hscan1 : Detection.isScanning (Detection.ui w1) = true)
    by (rewrite Hui; exact Hscan).
  destruct (scanning_settles createObjectURL w1
              (reachable_scan_facts createObjectURL w1 Hw1) Hscan1)
    as (_ & _ & H3 & H4 & H5).
  fold w' in H3, H4, H5.
  destruct (reachable_scan_facts createObjectURL w'
              (run_timers_reachable createObjectURL _ w1 Hw1)) as [Hpu _].
  cbv zeta in Hpu. rewrite H5, Hui in Hpu. cbn in Hpu.
  rewrite H5, Hui. now repeat split.
Qed.

Lemma verdict_lands_on_dropped_file_witness :
  Detection.image (Detection.ui (Detection.settle dropped_mid_scan))
  = Some landscape /\
  Detection.scanComplete (Detection.ui (Detection.settle dropped_mid_scan)) = true.
Proof.
  assert (Ht : Detection.clock scan_under_way <= 2000)
    by (vm_compute; discriminate).
  destruct (verdict_lands_on_dropped_file blob_url scan_under_way 2000
              landscape [] scan_under_way_reachable eq_refl Ht)
    as (H1 & _ & H3 & _).
  split; [exact H1|exact H3].
Defined.

(** X19: ANALYZE ANOTHER ASSET puts the component back in its initial
    state, with no timer pending: the button is there only after a scan,
    and by then the scan's last callback has run. *)
Theorem reset_returns_to_initial createObjectURL (w : Detection.World) (t : Z) :
  Detection.reachable createObjectURL w ->
  Detection.enabled Detection.ClickReset (Detection.ui w) = true ->
  Detection.ui (Detection.dispatch Detection.reset t w) = Detection.initial /\
  Detection.timers (Detection.dispatch Detection.reset t w) = [].
Proof.
  intros Hw Hen. cbn in Hen.
  destruct (reachable_scan_facts createObjectURL w Hw) as [_ Hf].
  cbv zeta in Hf.
  destruct (dispatch_reset t w) as [-> ->].
  facts_cases Hf; try congruence.
  apply map_eq_nil in Hcb. rewrite Hs, Hcb. now split.
Qed.

Lemma reset_returns_to_initial_witness :
  Detection.ui (Detection.dispatch Detection.reset 9000 scan_finished)
  = Detection.initial.
Proof.
  exact (proj1 (reset_returns_to_initial blob_url scan_finished 9000
                  scan_finished_reachable eq_refl)).
Defined.

(** The page's two halves of [handleEmbed], run back to back, are the
    handler run to its end. *)
Lemma handleEmbed_two_halves createObjectURL backend (p : Studio.Page) :
  Studio.pending p = None ->
  let p' := Studio.fire createObjectURL backend Studio.Settle
              (Studio.fire createObjectURL backend Studio.ClickRender p) in
  (Studio.net p', Studio.st p')
  = Creation.handleEmbed backend (Studio.st p) (Studio.net p).
Proof.
  intro Hpd. destruct p as [s w pd]. cbn [Studio.pending] in Hpd. subst pd.
  unfold Creation.handleEmbed.
  cbn [Studio.fire Studio.st Studio.net Studio.pending].
  destruct (len (Creation.sourceImages s) =? 0); [reflexivity|].
  destruct (Api.generateImage backend (Creation.sourceImages s)
              (Some (Creation.secretData s)) w) as [w' [t|url]]; reflexivity.
Qed.
